(** * XequiNet: the ASE calculator interface

    A shallow embedding of [xequinet/interface/ase_calculator.py]
    (class [XeqCalculator]) together with the periodic neighbour builder it
    calls, and the properties of both that the design specification states.

    Python objects are modelled as follows.
    - numpy arrays and torch tensors are nested lists ([ndarray]);
    - dictionaries ([model_inputs], the model's result, [self.results]) are
      finite maps keyed by strings;
    - floating point numbers are the elements of an arbitrary type [R] with
      the operations the code uses ([Float]); nothing is assumed of them, so
      every statement holds for binary floating point as well as for exact
      rationals;
    - exceptions are values of [exn]; a statement that mutates an object and
      may raise is a function from the state to the new state and either a
      value or the exception raised ([M]). *)

From stdpp Require Import gmap strings list sorting lexico.
From Stdlib Require Import ZArith QArith Qround Qabs.

Local Open Scope string_scope.
Local Open Scope list_scope.
Local Open Scope Z_scope.

(** ** Exceptions and the state-and-exception monad *)

Inductive exn : Type :=
  | ValueError (msg : string)
  | KeyError (key : string)
  | AttributeError (msg : string)
  | UnboundLocalError (name : string)
  | RuntimeError (msg : string)
  | IndexError (msg : string)
  | ConfigurationError (msg : string).

Inductive result (A : Type) : Type :=
  | Ok (a : A)
  | Raise (e : exn).
Arguments Ok {A} a.
Arguments Raise {A} e.

Definition is_Ok {A} (r : result A) : Prop :=
  match r with Ok _ => True | Raise _ => False end.

(** A computation over a mutable state [S]: the state it leaves is returned
    also when it raises, as a Python object keeps the attributes assigned
    before the exception. *)
Definition M (S A : Type) : Type := S → S * result A.

Definition ret {S A} (a : A) : M S A := λ s, (s, Ok a).
Definition raise {S A} (e : exn) : M S A := λ s, (s, Raise e).
Definition bind {S A B} (m : M S A) (k : A → M S B) : M S B :=
  λ s, match m s with
       | (s', Ok a) => k a s'
       | (s', Raise e) => (s', Raise e)
       end.
Definition get {S} : M S S := λ s, (s, Ok s).
Definition modify {S} (f : S → S) : M S unit := λ s, (f s, Ok tt).
Definition lift {S A} (r : result A) : M S A := λ s, (s, r).

Declare Scope py_scope.
Delimit Scope py_scope with py.
Notation "'let!' x ':=' m 'in' k" := (bind m (λ x, k))
  (at level 10, x name, m at level 100, k at level 200) : py_scope.
Notation "'run!' m 'in' k" := (bind m (λ _ : unit, k))
  (at level 10, m at level 100, k at level 200) : py_scope.

(** ** Arrays *)

(** A numpy array or torch tensor of any shape. *)
#[warnings="-register-all"]
Inductive ndarray (A : Type) : Type :=
  | Scalar (x : A)
  | Array (xs : list (ndarray A)).
Arguments Scalar {A} x.
Arguments Array {A} xs.

(** Elementwise application, as numpy broadcasts an operation with a
    scalar over an array. *)
Fixpoint amap {A B} (f : A → B) (t : ndarray A) : ndarray B :=
  match t with
  | Scalar x => Scalar (f x)
  | Array xs => Array (map (amap f) xs)
  end.

(** [tensor.item()]: the value of a tensor with exactly one element. *)
Fixpoint item {A} (t : ndarray A) : result A :=
  match t with
  | Scalar x => Ok x
  | Array [t'] => item t'
  | Array _ =>
      Raise (RuntimeError "a Tensor with several elements cannot be converted to Scalar")
  end.

(** ** Floating point, and what the calculator imports *)

(** The arithmetic of Python floats and numpy arrays that the calculator
    uses: [/], [*], unary [-], and the conversion to torch's default dtype
    ([.to(torch.get_default_dtype())]). *)
Class Float (R : Type) : Type := {
  fdiv : R → R → R;
  fmul : R → R → R;
  fneg : R → R;
  to_default_dtype : R → R;
  float_of_Z : Z → R
}.

Record Atoms (R : Type) : Type := {
  positions : ndarray R;
  numbers : ndarray Z;
  pbc : bool * bool * bool;
  cell : ndarray R
}.
Arguments positions {R} _.
Arguments numbers {R} _.
Arguments pbc {R} _.
Arguments cell {R} _.

(** What is imported from ASE ([ase.units], [ase.stress], the [Cell] and
    [Atoms] methods): the library is not part of the repository, so these
    are parameters of the development. *)
Class ASE (R : Type) : Type := {
  Bohr : R;
  Hartree : R;
  cell_rank : ndarray R → nat;
  get_volume : Atoms R → R;
  full_3x3_to_voigt_6_stress : ndarray R → result (ndarray R)
}.

(** An entry of the input bundle of the model. *)
Inductive value (R : Type) : Type :=
  | Tensor (t : ndarray R)
  | LongTensor (t : ndarray Z)
  | PyInt (z : Z).
Arguments Tensor {R} t.
Arguments LongTensor {R} t.
Arguments PyInt {R} z.

(** The scripted model, [torch.jit.ScriptModule]: called with the input
    bundle as keyword arguments, it returns a dictionary of tensors or
    raises. *)
Definition Model (R : Type) : Type :=
  gmap string (value R) → result (gmap string (ndarray R)).

Record Parameters (R : Type) : Type := {
  cutoff : R;
  max_edges : Z;
  charge : Z;
  spin : Z
}.
Arguments cutoff {R} _.
Arguments max_edges {R} _.
Arguments charge {R} _.
Arguments spin {R} _.

(** The keyword arguments that override [default_parameters]. *)
Record Kwargs (R : Type) : Type := {
  kw_cutoff : option R;
  kw_max_edges : option Z;
  kw_charge : option Z;
  kw_spin : option Z
}.
Arguments kw_cutoff {R} _.
Arguments kw_max_edges {R} _.
Arguments kw_charge {R} _.
Arguments kw_spin {R} _.

Definition no_kwargs {R} : Kwargs R :=
  {| kw_cutoff := None; kw_max_edges := None; kw_charge := None; kw_spin := None |}.

(** An instance of [XeqCalculator]. Its attribute [implemented_properties]
    is not a field: after [__init__] it is the very list object of the
    class (see [World]). *)
Record XeqCalculator (R : Type) : Type := {
  model_type : string;
  device : string;
  model : Model R;
  parameters : Parameters R;
  atoms : option (Atoms R);
  results : gmap string (ndarray R)
}.
Arguments model_type {R} _.
Arguments device {R} _.
Arguments model {R} _.
Arguments parameters {R} _.
Arguments atoms {R} _.
Arguments results {R} _.

(** What is shared by all calculators of a process: the list object bound
    to the class attribute [XeqCalculator.implemented_properties], and the
    record of the checkpoint files that [torch.jit.load] was called on. *)
Record World : Type := {
  implemented_properties : list string;
  jit_loaded : list string
}.

(** The state of a fresh process: the class statement has just run. *)
Definition initial_world : World :=
  {| implemented_properties := ["energy"]; jit_loaded := [] |}.

(** What is imported from torch. [torch.jit.load] reads a checkpoint file
    and returns the model stored there, or raises. *)
Class Torch (R : Type) : Type := {
  cuda_is_available : bool;
  jit_load : string → result (Model R)
}.

(** [xequinet.utils.radius_graph_pbc], the periodic neighbour builder:
    called with the positions, the periodicity flags, the cell, the cutoff
    and the neighbour budget, it returns the edge index and the shifts. *)
Class Utils (R : Type) : Type := {
  radius_graph_pbc :
    ndarray R → bool * bool * bool → ndarray R → R → Z →
    result (ndarray Z * ndarray R)
}.

Local Open Scope py_scope.

(** ** The calculator *)

Section Calculator.
Context {R : Type} `{Float R} `{ASE R} `{Torch R} `{Utils R}.

(** What an [md] construction adds to [implemented_properties]. *)
Definition md_properties : list string :=
  ["energies"; "stress"; "stresses"; "forces"].

(** [default_parameters] of the class. *)
Definition default_parameters : Parameters R :=
  {| cutoff := float_of_Z 5; max_edges := 100; charge := 0; spin := 0 |}.

(** [self.implemented_properties += l]: the attribute is found on the
    class, the list object is extended in place, and the instance
    attribute is bound to that same object. *)
Definition iadd_implemented_properties (l : list string) : M World unit :=
  modify (λ w, {| implemented_properties := implemented_properties w ++ l;
                  jit_loaded := jit_loaded w |}).

(** [torch.jit.load(ckpt_file, map_location=self.device)]. *)
Definition torch_jit_load (ckpt_file : string) : M World (Model R) :=
  λ w, ({| implemented_properties := implemented_properties w;
           jit_loaded := jit_loaded w ++ [ckpt_file] |},
        jit_load ckpt_file).

(** [Calculator.__init__] of ASE, reached by [super().__init__]: the
    parameters are the defaults of the class overridden by the keyword
    arguments; there are no atoms and no results yet. *)
Definition Calculator_init (kwargs : Kwargs R) : Parameters R :=
  {| cutoff := default (cutoff default_parameters) (kw_cutoff kwargs);
     max_edges := default (max_edges default_parameters) (kw_max_edges kwargs);
     charge := default (charge default_parameters) (kw_charge kwargs);
     spin := default (spin default_parameters) (kw_spin kwargs) |}.

(** [XeqCalculator.__init__]. The variant tag is checked first, then the
    list of the class is extended, then the model is chosen: the given
    one if there is one ([model.to(device)] is the model itself), else the
    one loaded from the checkpoint file, else [ValueError]. *)
Definition __init__ (model_type : string) (ckpt_file : option string)
    (model : option (Model R)) (kwargs : Kwargs R) :
    M World (XeqCalculator R) :=
  if bool_decide (model_type ∉ ["md"; "geometry"]) then
    raise (ValueError "model_type must be either 'md' or 'geometry'")
  else
    let device := if cuda_is_available then "cuda" else "cpu" in
    run! (if decide (model_type = "md") then
            iadd_implemented_properties md_properties
          else
            iadd_implemented_properties ["gradient"]) in
    let! m :=
      match model with
      | Some m => ret m
      | None =>
          match ckpt_file with
          | Some f => torch_jit_load f
          | None => raise (ValueError "Either ckpt_file or model must be provided")
          end
      end in
    ret {| model_type := model_type;
           device := device;
           model := m;
           parameters := Calculator_init kwargs;
           atoms := None;
           results := ∅ |}.

(** The arguments of one construction. *)
Record InitArgs : Type := {
  arg_model_type : string;
  arg_ckpt_file : option string;
  arg_model : option (Model R);
  arg_kwargs : Kwargs R
}.

(** The world after a series of constructions, one after the other,
    whether they succeed or raise. *)
Definition construct_all (l : list InitArgs) (w : World) : World :=
  foldl (λ w args,
           (__init__ (arg_model_type args) (arg_ckpt_file args)
              (arg_model args) (arg_kwargs args) w).1) w l.

(** [self.implemented_properties] of an instance: the list of the class. *)
Definition get_implemented_properties (w : World) (self : XeqCalculator R) :
    list string :=
  implemented_properties w.

(** [self.model]. *)
Definition get_model (self : XeqCalculator R) : Model R := model self.

(** [self.atoms]. *)
Definition self_atoms (self : XeqCalculator R) : option (Atoms R) :=
  atoms self.

Definition set_atoms (a : option (Atoms R)) (self : XeqCalculator R) :
    XeqCalculator R :=
  {| model_type := model_type self; device := device self;
     model := model self; parameters := parameters self;
     atoms := a; results := results self |}.

(** [self.results[key] = v]. *)
Definition set_result (key : string) (v : ndarray R) :
    M (XeqCalculator R) unit :=
  modify (λ self,
    {| model_type := model_type self; device := device self;
       model := model self; parameters := parameters self;
       atoms := atoms self; results := <[key := v]> (results self) |}).

(** [d[key]] on a dictionary. *)
Definition getitem {S V} (d : gmap string V) (key : string) : M S V :=
  match d !! key with
  | Some v => ret v
  | None => raise (KeyError key)
  end.

(** [Calculator.calculate] of ASE: it keeps a copy of the atoms it is
    given; the requested properties play no part. *)
Definition Calculator_calculate (atoms : option (Atoms R))
    (properties : list string) (system_changes : list string) :
    M (XeqCalculator R) unit :=
  match atoms with
  | Some a => modify (set_atoms (Some a))
  | None => ret tt
  end.

(** [calculate], lines 75 to 78: the coordinates handed to the model.
    With a variant tag that is neither of the two, [coord] is never
    assigned and its use in [model_inputs] raises. *)
Definition coord_of (model_type : string) (positions : ndarray R) :
    M (XeqCalculator R) (ndarray R) :=
  if decide (model_type = "geometry") then
    ret (amap to_default_dtype (amap (λ x, fdiv x Bohr) positions))
  else if decide (model_type = "md") then
    ret (amap to_default_dtype positions)
  else raise (UnboundLocalError "coord").

(** [calculate], lines 71 to 101: the input bundle, [model_inputs], as it
    is when the model is run. *)
Definition model_inputs_of (self : XeqCalculator R) (a : Atoms R) :
    M (XeqCalculator R) (gmap string (value R)) :=
  let positions := positions a in
  let at_no := numbers a in
  let! coord := coord_of (model_type self) positions in
  let model_inputs : gmap string (value R) :=
    <["spin" := PyInt (spin (parameters self))]>
    (<["charge" := PyInt (charge (parameters self))]>
    (<["coord" := Tensor coord]>
    (<["at_no" := LongTensor at_no]> ∅))) in
  if decide (model_type self = "md") then
    let! graph :=
      lift (radius_graph_pbc positions (pbc a) (cell a)
              (cutoff (parameters self)) (max_edges (parameters self))) in
    let edge_index := graph.1 in
    let shifts := graph.2 in
    ret (<["shifts" := Tensor (amap to_default_dtype shifts)]>
         (<["edge_index" := LongTensor edge_index]> model_inputs))
  else ret model_inputs.

(** [calculate], lines 106 to 119: the results written from the model's
    output, [model_res], one entry after the other. *)
Definition write_results (self : XeqCalculator R) (a : Atoms R)
    (model_res : gmap string (ndarray R)) : M (XeqCalculator R) unit :=
  if decide (model_type self = "geometry") then
    let! energy := getitem model_res "energy" in
    let! e := lift (item energy) in
    run! set_result "energy" (Scalar (fmul e Hartree)) in
    let! gradient := getitem model_res "gradient" in
    set_result "forces"
      (amap (λ x, fdiv (fmul (fneg x) Hartree) Bohr) gradient)
  else if decide (model_type self = "md") then
    let! energy := getitem model_res "energy" in
    let! e := lift (item energy) in
    run! set_result "energy" (Scalar e) in
    let! forces := getitem model_res "forces" in
    run! set_result "forces" forces in
    let! energies := getitem model_res "energies" in
    run! set_result "energies" energies in
    if decide (cell_rank (cell a) = 3%nat) then
      let! virials := getitem model_res "virials" in
      let! virial := getitem model_res "virial" in
      let! stress := lift (full_3x3_to_voigt_6_stress virial) in
      run! set_result "stress" (amap (λ x, fdiv x (get_volume a)) stress) in
      let! stresses := lift (full_3x3_to_voigt_6_stress virials) in
      set_result "stresses" (amap (λ x, fdiv x (get_volume a)) stresses)
    else ret tt
  else ret tt.

(** The calculator once [Calculator.calculate] has stored the atoms. *)
Definition with_atoms (atoms : option (Atoms R)) (self : XeqCalculator R) :
    XeqCalculator R :=
  match atoms with
  | Some a => set_atoms (Some a) self
  | None => self
  end.

(** The model's result holds what the stress entries are made of. *)
Definition stress_outputs_ok (res : gmap string (ndarray R)) : Prop :=
  ∃ virials virial stress stresses,
    res !! "virials" = Some virials ∧ res !! "virial" = Some virial ∧
    full_3x3_to_voigt_6_stress virial = Ok stress ∧
    full_3x3_to_voigt_6_stress virials = Ok stresses.

(** The model's result holds what every call of the variant reads: the
    energy as a single number, and the gradient ([geometry]) or the
    forces and the energies per atom ([md]). *)
Definition basic_outputs_ok (self : XeqCalculator R)
    (res : gmap string (ndarray R)) : Prop :=
  (∃ energy e, res !! "energy" = Some energy ∧ item energy = Ok e) ∧
  if decide (model_type self = "geometry") then is_Some (res !! "gradient")
  else is_Some (res !! "forces") ∧ is_Some (res !! "energies").

(** [XeqCalculator.calculate]. The requested properties default to the
    list of the class and are handed to ASE; the atoms used are those
    that ASE has stored. *)
Definition calculate (w : World) (atoms : option (Atoms R))
    (properties : option (list string)) (system_changes : list string) :
    M (XeqCalculator R) unit :=
  let! self0 := get in
  let properties :=
    match properties with
    | None => get_implemented_properties w self0
    | Some p => p
    end in
  run! Calculator_calculate atoms properties system_changes in
  let! self := get in
  match self_atoms self with
  | None =>
      raise (AttributeError "'NoneType' object has no attribute 'positions'")
  | Some a =>
      let! model_inputs := model_inputs_of self a in
      let! model_res := lift (model self model_inputs) in
      write_results self a model_res
  end.

End Calculator.

(** ** The periodic neighbour builder *)

(** [radius_graph_pbc] lives in [xequinet.utils], which is not among the
    sources at hand: the builder is modelled from its specification
    (component PeriodicNeighborBuilder, section 4.1), over exact rationals
    and squared distances. *)
Module PeriodicNeighborBuilder.

Local Open Scope Q_scope.

Definition vec3 : Type := Q * Q * Q.
Definition shift3 : Type := Z * Z * Z.

(** Modelled from the spec: NeighborEdge, an ordered pair of atom indices
    and the integer triple naming the periodic image of the target. *)
Record NeighborEdge : Type := {
  source : nat;
  target : nat;
  shift : shift3
}.

(** Modelled from the spec: the neighbour count of NeighborBudget, a
    positive integer or the sentinel for no truncation. *)
Inductive MaxNeighbors : Type :=
  | NoTruncation
  | AtMost (n : positive).

Definition dot (u v : vec3) : Q :=
  let '(u1, u2, u3) := u in
  let '(v1, v2, v3) := v in
  u1 * v1 + u2 * v2 + u3 * v3.

Definition vadd (u v : vec3) : vec3 :=
  let '(u1, u2, u3) := u in
  let '(v1, v2, v3) := v in
  (u1 + v1, u2 + v2, u3 + v3).

Definition vsub (u v : vec3) : vec3 :=
  let '(u1, u2, u3) := u in
  let '(v1, v2, v3) := v in
  (u1 - v1, u2 - v2, u3 - v3).

Definition vscale (n : Z) (u : vec3) : vec3 :=
  let '(u1, u2, u3) := u in
  (inject_Z n * u1, inject_Z n * u2, inject_Z n * u3).

Definition det3 (a b c : vec3) : Q :=
  let '(a1, a2, a3) := a in
  let '(b1, b2, b3) := b in
  let '(c1, c2, c3) := c in
  a1 * (b2 * c3 - b3 * c2) - a2 * (b1 * c3 - b3 * c1)
  + a3 * (b1 * c2 - b2 * c1).

(** The Gram determinant of at most three vectors: the squared volume of
    the parallelotope they span (1 for none, the squared length for one,
    the squared area for two). *)
Definition gram (vs : list vec3) : Q :=
  match vs with
  | [] => 1
  | [a] => dot a a
  | [a; b] => dot a a * dot b b - dot a b * dot a b
  | [a; b; c] => det3 a b c * det3 a b c
  | _ => 0
  end.

Definition lattice_rows (lattice : vec3 * vec3 * vec3) : list vec3 :=
  let '(a1, a2, a3) := lattice in [a1; a2; a3].

Definition flags (pbc : bool * bool * bool) : list bool :=
  let '(p1, p2, p3) := pbc in [p1; p2; p3].

(** Modelled from the spec: the lattice is meaningful on the periodic axes
    only. The lattice vectors of the periodic axes, axis [skip] left out. *)
Definition periodic_vectors (lattice : vec3 * vec3 * vec3)
    (pbc : bool * bool * bool) (skip : option nat) : list vec3 :=
  omap (λ '(k, (p, a)),
          if p && negb (bool_decide (skip = Some k)) then Some a else None)
       (imap (λ k pa, (k, pa)) (zip (flags pbc) (lattice_rows lattice))).

(** Modelled from the spec: steps 1 and 2 of the algorithm, the number of
    images to either side along axis [k]. On a periodic axis it is the least [n] with
    [n * spacing >= cutoff], where the spacing is the distance from the
    lattice vector to the span of the other periodic lattice vectors
    (the spacing of the lattice planes), whose square is a quotient of
    Gram determinants; on a non-periodic axis only the image 0 is
    considered. *)
Definition image_range (lattice : vec3 * vec3 * vec3)
    (pbc : bool * bool * bool) (cutoff : Q) (k : nat) : Z :=
  if default false (flags pbc !! k) then
    Z.sqrt_up (Qceiling (cutoff * cutoff
                         * gram (periodic_vectors lattice pbc (Some k))
                         / gram (periodic_vectors lattice pbc None)))
  else 0%Z.

(** The integers from [-n] to [n]. *)
Definition symmetric_range (n : Z) : list Z :=
  map (λ i, (Z.of_nat i - n)%Z) (seq 0 (Z.to_nat (2 * n + 1))).

Definition image_shifts (lattice : vec3 * vec3 * vec3)
    (pbc : bool * bool * bool) (cutoff : Q) : list shift3 :=
  s1 ← symmetric_range (image_range lattice pbc cutoff 0);
  s2 ← symmetric_range (image_range lattice pbc cutoff 1);
  s3 ← symmetric_range (image_range lattice pbc cutoff 2);
  [(s1, s2, s3)].

(** The real displacement of a shift: its combination of lattice rows. *)
Definition shift_vector (lattice : vec3 * vec3 * vec3) (s : shift3) : vec3 :=
  let '(a1, a2, a3) := lattice in
  let '(s1, s2, s3) := s in
  vadd (vadd (vscale s1 a1) (vscale s2 a2)) (vscale s3 a3).

(** The squared Euclidean length of an edge under its shift. *)
Definition dist2 (positions : list vec3) (lattice : vec3 * vec3 * vec3)
    (e : NeighborEdge) : Q :=
  match positions !! source e, positions !! target e with
  | Some ri, Some rj =>
      let d := vsub (vadd rj (shift_vector lattice (shift e))) ri in
      dot d d
  | _, _ => 0
  end.

Definition zero_shift : shift3 := (0%Z, 0%Z, 0%Z).

(** Modelled from the spec: step 3 of the algorithm, an edge is kept when
    its length is at most the cutoff and it is not the self-pair at zero
    shift. *)
Definition admissible (positions : list vec3)
    (lattice : vec3 * vec3 * vec3) (cutoff : Q) (e : NeighborEdge) : bool :=
  Qle_bool (dist2 positions lattice e) (cutoff * cutoff)
  && negb (bool_decide (target e = source e ∧ shift e = zero_shift)).

(** Modelled from the spec: step 3 of the algorithm, every pair of the
    source atom [i] with a target atom and an image; an index past the
    last atom is the source of none. *)
Definition pairs_of (positions : list vec3) (shifts : list shift3)
    (i : nat) : list NeighborEdge :=
  if decide (i < length positions)%nat then
    j ← seq 0 (length positions);
    s ← shifts;
    [{| source := i; target := j; shift := s |}]
  else [].

(** Modelled from the spec: the candidate edges of the source atom [i],
    before truncation. *)
Definition candidates (positions : list vec3)
    (lattice : vec3 * vec3 * vec3) (pbc : bool * bool * bool)
    (cutoff : Q) (i : nat) : list NeighborEdge :=
  filter (λ e, admissible positions lattice cutoff e)
    (pairs_of positions (image_shifts lattice pbc cutoff) i).

Definition edge_key (e : NeighborEdge) : nat * nat * (Z * Z * Z) :=
  (source e, target e, shift e).

(** Modelled from the spec: step 4 of the algorithm, nearest first; edges
    of equal length are ordered by their indices and shift, so the order
    does not depend on how the candidates were enumerated. *)
Definition nearer (d : NeighborEdge → Q) (e1 e2 : NeighborEdge) : Prop :=
  d e1 < d e2 ∨
  (d e1 == d e2 ∧
   (edge_key e1 = edge_key e2 ∨ lexico (edge_key e1) (edge_key e2))).

#[export] Instance Qlt_dec (x y : Q) : Decision (x < y) :=
  match Qlt_le_dec x y with
  | left L => left L
  | right L => right (Qle_not_lt _ _ L)
  end.

#[export] Instance Qeq_decision (x y : Q) : Decision (x == y) := Qeq_dec x y.

#[export] Instance nearer_dec d e1 e2 : Decision (nearer d e1 e2).
Proof. unfold nearer. apply _. Defined.

(** Modelled from the spec: step 4 of the algorithm, when the candidates
    of an atom exceed the budget, the nearest [max_neighbors] are
    retained. *)
Definition truncate (d : NeighborEdge → Q) (max_neighbors : MaxNeighbors)
    (cands : list NeighborEdge) : list NeighborEdge :=
  match max_neighbors with
  | NoTruncation => cands
  | AtMost n =>
      if decide (length cands ≤ Pos.to_nat n)%nat then cands
      else take (Pos.to_nat n) (merge_sort (nearer d) cands)
  end.

(** The edges retained for the source atom [i]. *)
Definition retained_of (edges : list NeighborEdge) (i : nat) :
    list NeighborEdge :=
  filter (λ e, source e = i) edges.

Definition has_periodic_axis (pbc : bool * bool * bool) : bool :=
  existsb id (flags pbc).

(** Modelled from the spec: [build], the contract of
    PeriodicNeighborBuilder. It fails on a cutoff that is not positive and
    on a lattice that is degenerate on the periodic axes; without a
    periodic axis no lattice is needed. Both directions of a pair are
    emitted, each from its own source atom (step 5). *)
Definition build (positions : list vec3) (lattice : vec3 * vec3 * vec3)
    (pbc : bool * bool * bool) (cutoff : Q) (max_neighbors : MaxNeighbors) :
    result (list NeighborEdge) :=
  if Qle_bool cutoff 0 then
    Raise (ConfigurationError "cutoff must be positive")
  else if has_periodic_axis pbc
          && Qeq_bool (gram (periodic_vectors lattice pbc None)) 0 then
    Raise (ConfigurationError "degenerate lattice on a periodic axis")
  else
    Ok (i ← seq 0 (length positions);
        truncate (dist2 positions lattice) max_neighbors
          (candidates positions lattice pbc cutoff i)).

End PeriodicNeighborBuilder.

(** ** Exact rational arithmetic as an instance *)

(** The calculator run on rationals, with the neighbour builder above as
    [radius_graph_pbc]: the instance at which the statements below are
    exercised on concrete configurations. *)
Module Rational.
Import PeriodicNeighborBuilder.
Local Open Scope Q_scope.

Definition Q_Float : Float Q :=
  {| fdiv := Qdiv; fmul := Qmult; fneg := Qopp;
     to_default_dtype := λ x, x; float_of_Z := inject_Z |}.

Definition to_vec3 (t : ndarray Q) : option vec3 :=
  match t with
  | Array [Scalar x; Scalar y; Scalar z] => Some (x, y, z)
  | _ => None
  end.

Definition to_vec3s (t : ndarray Q) : option (list vec3) :=
  match t with
  | Array rows => mapM to_vec3 rows
  | Scalar _ => None
  end.

Definition to_mat3 (t : ndarray Q) : option (vec3 * vec3 * vec3) :=
  match t with
  | Array [r1; r2; r3] =>
      a ← to_vec3 r1; b ← to_vec3 r2; c ← to_vec3 r3; Some (a, b, c)
  | _ => None
  end.

Definition nonzero (x : Q) : bool := negb (Qeq_bool x 0).

(** [Cell.rank] of ASE: the number of lattice vectors that are not
    zero. *)
Definition rank_of (t : ndarray Q) : nat :=
  match to_mat3 t with
  | Some (a, b, c) =>
      length (filter (λ v : vec3, Is_true (nonzero (dot v v))) [a; b; c])
  | None => 0%nat
  end.

Definition volume_of (a : Atoms Q) : Q :=
  match to_mat3 (cell a) with
  | Some (a, b, c) => Qabs (det3 a b c)
  | None => 0
  end.

(** The six components xx, yy, zz, yz, xz, xy of a 3x3 matrix, the
    off-diagonal ones combined by [f] from the entry above the diagonal
    and the entry below it. *)
Definition voigt6 (f : Q → Q → Q) (m : vec3 * vec3 * vec3) : ndarray Q :=
  let '((xx, xy, xz), (yx, yy, yz), (zx, zy, zz)) := m in
  Array [Scalar xx; Scalar yy; Scalar zz;
         Scalar (f yz zy); Scalar (f xz zx); Scalar (f xy yx)].

(** The conversion of one matrix, or of each matrix of a sequence. *)
Definition voigt_with (f : Q → Q → Q) (t : ndarray Q) :
    result (ndarray Q) :=
  match to_mat3 t with
  | Some m => Ok (voigt6 f m)
  | None =>
      match t with
      | Array ts =>
          match mapM to_mat3 ts with
          | Some ms => Ok (Array (map (voigt6 f) ms))
          | None => Raise (IndexError "too many indices for array")
          end
      | Scalar _ => Raise (IndexError "too many indices for array")
      end
  end.

(** A conversion that averages the two off-diagonal entries. *)
Definition voigt_symmetrized : ndarray Q → result (ndarray Q) :=
  voigt_with (λ above below, (above + below) / 2).

(** A conversion that reads the entries above the diagonal only. *)
Definition voigt_upper : ndarray Q → result (ndarray Q) :=
  voigt_with (λ above _, (above + above) / 2).

(** ASE on rationals, for a given conversion to the reduced form; the
    units are those of [ase.units] to six decimals. *)
Definition Q_ASE (voigt : ndarray Q → result (ndarray Q)) : ASE Q :=
  {| Bohr := 529177 # 1000000;
     Hartree := 27211386 # 1000000;
     cell_rank := rank_of;
     get_volume := volume_of;
     full_3x3_to_voigt_6_stress := voigt |}.

(** A model that answers whatever it is asked with the same result. *)
Definition constant_model (res : gmap string (ndarray Q)) : Model Q :=
  λ _, Ok res.

Definition Q_Torch : Torch Q :=
  {| cuda_is_available := false;
     jit_load := λ f,
       if decide (f = "model.jit") then Ok (constant_model ∅)
       else Raise (ValueError "The provided filename does not exist") |}.

(** The budget that a Python integer stands for: a positive count, or no
    truncation. *)
Definition budget_of (max_num_neighbors : Z) : MaxNeighbors :=
  match max_num_neighbors with
  | Zpos n => AtMost n
  | _ => NoTruncation
  end.

Definition edge_index_of (edges : list NeighborEdge) : ndarray Z :=
  Array [Array (map (λ e, Scalar (Z.of_nat (source e))) edges);
         Array (map (λ e, Scalar (Z.of_nat (target e))) edges)].

Definition shifts_of (edges : list NeighborEdge) : ndarray Q :=
  Array (map (λ e, let '(s1, s2, s3) := shift e in
                   Array [Scalar (inject_Z s1); Scalar (inject_Z s2);
                          Scalar (inject_Z s3)]) edges).

(** The builder above behind the interface of [radius_graph_pbc]: the
    edge index is the pair of the source and target rows, the shifts are
    the integer triples. *)
Definition Q_Utils : Utils Q :=
  {| radius_graph_pbc := λ positions pbc cell cutoff max_num_neighbors,
       match to_vec3s positions, to_mat3 cell with
       | Some ps, Some lattice =>
           match build ps lattice pbc cutoff (budget_of max_num_neighbors) with
           | Ok edges => Ok (edge_index_of edges, shifts_of edges)
           | Raise e => Raise e
           end
       | _, _ => Raise (ValueError "positions and cell must be arrays of 3-vectors")
       end |}.

Definition vec (x y z : Q) : ndarray Q := Array [Scalar x; Scalar y; Scalar z].

(** One hydrogen atom at the origin, no cell, not periodic. *)
Definition hydrogen : Atoms Q :=
  {| positions := Array [vec 0 0 0];
     numbers := Array [Scalar 1%Z];
     pbc := (false, false, false);
     cell := Array [vec 0 0 0; vec 0 0 0; vec 0 0 0] |}.

(** Two atoms in a cubic cell of side 4, periodic in every direction. *)
Definition crystal : Atoms Q :=
  {| positions := Array [vec 0 0 0; vec 2 2 2];
     numbers := Array [Scalar 11%Z; Scalar 17%Z];
     pbc := (true, true, true);
     cell := Array [vec 4 0 0; vec 0 4 0; vec 0 0 4] |}.

(** The same two atoms on a chain: periodic along x only, cell of rank 1. *)
Definition chain : Atoms Q :=
  {| positions := Array [vec 0 0 0; vec 1 0 0];
     numbers := Array [Scalar 11%Z; Scalar 17%Z];
     pbc := (true, false, false);
     cell := Array [vec 2 0 0; vec 0 0 0; vec 0 0 0] |}.

Definition geometry_output : gmap string (ndarray Q) :=
  <["gradient" := Array [vec 1 (-2) 0]]>
  (<["energy" := Array [Scalar (-1 # 2)]]> ∅).

Definition asymmetric_virial : ndarray Q :=
  Array [vec 1 6 0; vec 2 1 0; vec 0 0 1].

(** The asymmetric virial with its entries below the diagonal changed. *)
Definition other_virial : ndarray Q :=
  Array [vec 1 6 0; vec 9 1 0; vec 5 7 1].

Definition md_output (virial : ndarray Q) : gmap string (ndarray Q) :=
  <["virials" := Array [virial; virial]]>
  (<["virial" := virial]>
  (<["energies" := Array [Scalar (-1); Scalar (-2)]]>
  (<["forces" := Array [vec 1 0 0; vec (-1) 0 0]]>
  (<["energy" := Scalar (-3)]> ∅)))).

(** A calculator as [__init__] leaves it, given a model. *)
Definition calculator_of (model_type : string) (m : Model Q) :
    XeqCalculator Q :=
  {| model_type := model_type; device := "cpu"; model := m;
     parameters := @default_parameters Q Q_Float;
     atoms := None; results := ∅ |}.

End Rational.


(** * Properties *)

(** ** The neighbour builder: order and truncation *)

Module BuilderFacts.
Import PeriodicNeighborBuilder.
Local Open Scope Q_scope.

Section Order.
Variable d : NeighborEdge → Q.

Lemma edge_key_inj e1 e2 : edge_key e1 = edge_key e2 → e1 = e2.
Proof.
  destruct e1, e2. unfold edge_key. simpl. intros E.
  injection E as -> -> ->. reflexivity.
Qed.

#[export] Instance nearer_total : Total (nearer d).
Proof.
  intros e1 e2. unfold nearer.
  destruct (Q_dec (d e1) (d e2)) as [[L | G] | E].
  - left. left. exact L.
  - right. left. exact G.
  - destruct (trichotomyT lexico (edge_key e1) (edge_key e2))
      as [[K | K] | K].
    + left. right. split; [exact E | right; exact K].
    + left. right. split; [exact E | left; exact K].
    + right. right. split; [symmetry; exact E | right; exact K].
Qed.

#[export] Instance nearer_trans : Transitive (nearer d).
Proof.
  intros e1 e2 e3 [L12 | [E12 K12]] [L23 | [E23 K23]]; unfold nearer.
  - left. eapply Qlt_trans; eassumption.
  - left. rewrite <- E23. exact L12.
  - left. rewrite E12. exact L23.
  - right. split; [rewrite E12; exact E23 |].
    destruct K12 as [-> | K12]; [exact K23 |].
    destruct K23 as [<- | K23]; [right; exact K12 |].
    right. etrans; eassumption.
Qed.

#[export] Instance nearer_antisymm : AntiSymm (=) (nearer d).
Proof.
  intros e1 e2 [L12 | [E12 K12]] [L21 | [E21 K21]].
  - exfalso. apply (Qlt_irrefl (d e1)). eapply Qlt_trans; eassumption.
  - exfalso. rewrite E21 in L12. exact (Qlt_irrefl _ L12).
  - exfalso. rewrite <- E12 in L21. exact (Qlt_irrefl _ L21).
  - destruct K12 as [K | K12]; [apply edge_key_inj; exact K |].
    destruct K21 as [K | K21]; [symmetry; apply edge_key_inj; exact K |].
    exfalso. apply (irreflexivity lexico (edge_key e1)).
    etrans; eassumption.
Qed.

Lemma nearer_le e1 e2 : nearer d e1 e2 → d e1 <= d e2.
Proof.
  intros [L | [E _]]; [apply Qlt_le_weak; exact L |].
  rewrite E. apply Qle_refl.
Qed.
End Order.

Section Truncation.
Variable d : NeighborEdge → Q.

Lemma truncate_exceeds n cands :
  (Pos.to_nat n < length cands)%nat →
  truncate d (AtMost n) cands
  = take (Pos.to_nat n) (merge_sort (nearer d) cands).
Proof.
  intros L. unfold truncate. destruct (decide _) as [L' | _]; [lia | done].
Qed.

Lemma truncate_length_le n cands :
  (length (truncate d (AtMost n) cands) ≤ Pos.to_nat n)%nat.
Proof.
  unfold truncate. destruct (decide _) as [L | _]; [exact L |].
  rewrite length_take. lia.
Qed.

Lemma truncate_submseteq m cands : truncate d m cands ⊆+ cands.
Proof.
  destruct m as [| n]; simpl; [done |].
  destruct (decide _) as [_ | _]; [done |].
  rewrite <- (merge_sort_Permutation (nearer d) cands) at 2.
  apply sublist_submseteq, sublist_take.
Qed.

Lemma truncate_length n cands :
  (Pos.to_nat n < length cands)%nat →
  length (truncate d (AtMost n) cands) = Pos.to_nat n.
Proof.
  intros L. rewrite truncate_exceeds by exact L.
  rewrite length_take.
  rewrite (Permutation_length (merge_sort_Permutation (nearer d) cands)).
  lia.
Qed.

(** Whatever is retained is at least as near as whatever is dropped. *)
Lemma truncate_nearest n cands r c :
  (Pos.to_nat n < length cands)%nat →
  r ∈ truncate d (AtMost n) cands → c ∈ cands →
  c ∉ truncate d (AtMost n) cands → d r <= d c.
Proof.
  intros L. rewrite truncate_exceeds by exact L.
  set (s := merge_sort (nearer d) cands). intros Hr Hc Hnc.
  assert (Hs : StronglySorted (nearer d) s)
    by (apply StronglySorted_merge_sort; apply _).
  rewrite <- (take_drop (Pos.to_nat n) s) in Hs.
  apply nearer_le.
  eapply StronglySorted_app_1_elem_of; [exact Hs | exact Hr |].
  assert (Hcs : c ∈ s)
    by (unfold s; rewrite merge_sort_Permutation; exact Hc).
  rewrite <- (take_drop (Pos.to_nat n) s) in Hcs.
  apply elem_of_app in Hcs as [Hcs | Hcs]; [contradiction | exact Hcs].
Qed.

(** Sorting forgets the order in which the candidates were listed. *)
Lemma merge_sort_nearer_perm cands cands' :
  cands' ≡ₚ cands →
  merge_sort (nearer d) cands' = merge_sort (nearer d) cands.
Proof.
  intros P. apply (StronglySorted_unique (nearer d)).
  - apply StronglySorted_merge_sort; apply _.
  - apply StronglySorted_merge_sort; apply _.
  - rewrite !merge_sort_Permutation. exact P.
Qed.

Lemma truncate_order_independent n cands cands' :
  cands' ≡ₚ cands → (Pos.to_nat n < length cands)%nat →
  truncate d (AtMost n) cands' = truncate d (AtMost n) cands.
Proof.
  intros P L.
  rewrite !truncate_exceeds;
    [| exact L | rewrite (Permutation_length P); exact L].
  f_equal. apply merge_sort_nearer_perm. exact P.
Qed.
End Truncation.

Section Build.
Variables (positions : list vec3) (lattice : vec3 * vec3 * vec3)
  (pbc : bool * bool * bool) (cutoff : Q).

Lemma pairs_of_source shifts i e :
  e ∈ pairs_of positions shifts i → source e = i.
Proof.
  unfold pairs_of. destruct (decide _) as [_ | _].
  - intros He. apply list_elem_of_bind in He as (j & He & _).
    apply list_elem_of_bind in He as (s & He & _).
    apply list_elem_of_singleton in He. subst e. reflexivity.
  - intros He. inversion He.
Qed.

Lemma candidates_source i e :
  e ∈ candidates positions lattice pbc cutoff i → source e = i.
Proof.
  unfold candidates. intros He.
  apply list_elem_of_filter in He as [_ He].
  eapply pairs_of_source. exact He.
Qed.

Lemma candidates_past_end i :
  (length positions ≤ i)%nat →
  candidates positions lattice pbc cutoff i = [].
Proof.
  intros L. unfold candidates, pairs_of.
  destruct (decide _) as [L' | _]; [lia | reflexivity].
Qed.

Lemma truncate_nil d m : truncate d m [] = [].
Proof.
  unfold truncate. destruct m as [| n]; [done |].
  case_decide as N; [done | simpl in N; lia].
Qed.

Lemma retained_of_all edges i :
  (∀ e, e ∈ edges → source e = i) → retained_of edges i = edges.
Proof.
  unfold retained_of. induction edges as [| e edges IH]; intros Hs.
  - reflexivity.
  - rewrite filter_cons_True by (apply Hs; left).
    f_equal. apply IH. intros e' He'. apply Hs. right. exact He'.
Qed.

Lemma retained_of_none edges i :
  (∀ e, e ∈ edges → source e ≠ i) → retained_of edges i = [].
Proof.
  unfold retained_of. induction edges as [| e edges IH]; intros Hs.
  - reflexivity.
  - rewrite filter_cons_False by (apply Hs; left).
    apply IH. intros e' He'. apply Hs. right. exact He'.
Qed.

Lemma retained_of_bind (f : nat → list NeighborEdge) l i :
  NoDup l → (∀ j e, e ∈ f j → source e = j) →
  retained_of (l ≫= f) i = if decide (i ∈ l) then f i else [].
Proof.
  intros ND Hf.
  induction l as [| j l IH].
  - rewrite decide_False by apply not_elem_of_nil. reflexivity.
  - apply NoDup_cons in ND as [Hj ND].
    change ((j :: l) ≫= f) with (f j ++ (l ≫= f))%list.
    unfold retained_of in *. rewrite filter_app, (IH ND).
    destruct (decide (j = i)) as [-> | Hne].
    + rewrite (decide_True (P := i ∈ i :: l)) by left.
      rewrite (decide_False (P := i ∈ l)) by exact Hj.
      rewrite app_nil_r.
      apply retained_of_all. intros e He. by apply Hf.
    + assert (E : filter (λ e, source e = i) (f j) = []).
      { apply retained_of_none. intros e He.
        rewrite (Hf _ _ He). exact Hne. }
      rewrite E. simpl.
      destruct (decide (i ∈ l)) as [I | I].
      * rewrite decide_True by (right; exact I). reflexivity.
      * rewrite decide_False; [reflexivity |].
        intros I'. apply elem_of_cons in I' as [-> | I']; done.
Qed.

Lemma build_retained m edges i :
  build positions lattice pbc cutoff m = Ok edges →
  retained_of edges i
  = truncate (dist2 positions lattice) m
      (candidates positions lattice pbc cutoff i).
Proof.
  unfold build. destruct (Qle_bool cutoff 0); [discriminate |].
  destruct (_ && _); [discriminate |].
  intros [= <-]. rewrite retained_of_bind.
  - destruct (decide _) as [_ | N]; [reflexivity |].
    rewrite candidates_past_end, truncate_nil; [reflexivity |].
    destruct (decide (i < length positions)%nat) as [L | L]; [| lia].
    exfalso. apply N. apply elem_of_seq. lia.
  - apply NoDup_seq.
  - intros j e He. eapply candidates_source.
    eapply elem_of_submseteq; [exact He | apply truncate_submseteq].
Qed.
End Build.
End BuilderFacts.

(** ** The claim on the neighbour builder *)

Section BuilderClaims.
Import PeriodicNeighborBuilder BuilderFacts.

(** The builder returns whenever the cutoff is positive and the lattice
    is not degenerate on the periodic axes. *)
Lemma build_returns positions lattice pbc cutoff max_neighbors :
  (0 < cutoff)%Q →
  has_periodic_axis pbc = false
  ∨ ¬ (gram (periodic_vectors lattice pbc None) == 0)%Q →
  is_Ok (build positions lattice pbc cutoff max_neighbors).
Proof.
  intros Hc Hl. unfold build.
  destruct (Qle_bool cutoff 0) eqn:E.
  - apply Qle_bool_iff in E. exfalso. eapply Qlt_not_le; eassumption.
  - destruct Hl as [-> | Hl]; [exact I |].
    destruct (Qeq_bool _ 0) eqn:E'.
    + apply Qeq_bool_iff in E'. contradiction.
    + rewrite andb_false_r. exact I.
Qed.

(** The properties that the specification lists as testable. One atom in
    a cubic cell of side 4: no edge when the cutoff is below half the
    side, the six face neighbours, each a unit shift along one axis, when
    the cutoff is just above the side. *)
Example cubic_cell_below_half_side :
  build [(0, 0, 0)%Q] ((4, 0, 0), (0, 4, 0), (0, 0, 4))%Q
    (true, true, true) (19 # 10) (AtMost 100) = Ok [].
Proof. vm_compute. reflexivity. Qed.

Example cubic_cell_face_neighbours :
  build [(0, 0, 0)%Q] ((4, 0, 0), (0, 4, 0), (0, 0, 4))%Q
    (true, true, true) (41 # 10) (AtMost 100)
  = Ok (map (λ s, {| source := 0; target := 0; shift := s |})
          [(-1, 0, 0); (0, -1, 0); (0, 0, -1);
           (0, 0, 1); (0, 1, 0); (1, 0, 0)]%Z).
Proof. vm_compute. reflexivity. Qed.

(** Two atoms on a chain of period 2 along x, cutoff 2.5, budget 10: each
    atom sees its own two images and the other atom twice. *)
Example periodic_chain :
  build [(0, 0, 0)%Q; (1, 0, 0)%Q] ((2, 0, 0), (0, 0, 0), (0, 0, 0))%Q
    (true, false, false) (25 # 10) (AtMost 10)
  = Ok [{| source := 0; target := 0; shift := (-1, 0, 0)%Z |};
        {| source := 0; target := 0; shift := (1, 0, 0)%Z |};
        {| source := 0; target := 1; shift := (-1, 0, 0)%Z |};
        {| source := 0; target := 1; shift := (0, 0, 0)%Z |};
        {| source := 1; target := 0; shift := (0, 0, 0)%Z |};
        {| source := 1; target := 0; shift := (1, 0, 0)%Z |};
        {| source := 1; target := 1; shift := (-1, 0, 0)%Z |};
        {| source := 1; target := 1; shift := (1, 0, 0)%Z |}].
Proof. vm_compute. reflexivity. Qed.

(** Without a periodic axis the builder is a plain radius search and asks
    nothing of the lattice. *)
Example no_periodic_axis :
  build [(0, 0, 0)%Q; (1, 0, 0)%Q; (9, 0, 0)%Q]
    ((0, 0, 0), (0, 0, 0), (0, 0, 0))%Q
    (false, false, false) (25 # 10) (AtMost 10)
  = Ok [{| source := 0; target := 1; shift := (0, 0, 0)%Z |};
        {| source := 1; target := 0; shift := (0, 0, 0)%Z |}].
Proof. vm_compute. reflexivity. Qed.

(** C8. Of the edges that the builder returns, those of any one source
    atom are at most [max_neighbors], and they are candidates of that
    atom. When the candidates of the atom exceed the budget, exactly
    [max_neighbors] are retained, none of them farther than a candidate
    that was dropped, and the same edges, in the same order, are retained
    in whatever order the candidates are enumerated. *)
Theorem truncation_property positions lattice pbc cutoff n edges i :
  build positions lattice pbc cutoff (AtMost n) = Ok edges →
  let d := dist2 positions lattice in
  let cands := candidates positions lattice pbc cutoff i in
  let retained := retained_of edges i in
  (length retained ≤ Pos.to_nat n)%nat ∧
  retained ⊆+ cands ∧
  ((Pos.to_nat n < length cands)%nat →
   length retained = Pos.to_nat n ∧
   (∀ r c, r ∈ retained → c ∈ cands → c ∉ retained → (d r <= d c)%Q) ∧
   (∀ cands', cands' ≡ₚ cands → truncate d (AtMost n) cands' = retained)).
Proof.
  intros Hb d cands retained.
  assert (E : retained = truncate d (AtMost n) cands)
    by (eapply build_retained; exact Hb).
  rewrite E. split; [apply truncate_length_le |].
  split; [apply truncate_submseteq |].
  intros L. split; [by apply truncate_length |]. split.
  - intros r c. by apply truncate_nearest.
  - intros cands' P. by apply truncate_order_independent.
Qed.

(** One atom in a cubic cell of side 4 with cutoff 4.1 has its six face
    neighbours as candidates; with a budget of four, four are retained. *)
Lemma truncation_property_witness :
  let positions := [(0, 0, 0)%Q] in
  let lattice := ((4, 0, 0), (0, 4, 0), (0, 0, 4))%Q in
  ∃ edges,
    build positions lattice (true, true, true) (41 # 10) (AtMost 4)
    = Ok edges ∧
    length (candidates positions lattice (true, true, true) (41 # 10) 0)
    = 6%nat ∧
    length (retained_of edges 0) = 4%nat.
Proof.
  intros positions lattice.
  destruct (build positions lattice (true, true, true) (41 # 10) (AtMost 4))
    as [edges |] eqn:Hb; [| discriminate].
  exists edges. split; [reflexivity |].
  assert (Hc : length (candidates positions lattice (true, true, true)
                         (41 # 10) 0) = 6%nat)
    by (vm_compute; reflexivity).
  split; [exact Hc |].
  destruct (truncation_property positions lattice (true, true, true)
              (41 # 10) 4 edges 0%nat Hb) as (_ & _ & Hex).
  destruct Hex as (Hlen & _ & _); [rewrite Hc; simpl; lia |].
  exact Hlen.
Defined.
End BuilderClaims.

(** ** The calculator *)

Section CalculatorFacts.
Context {R : Type} `{Float R} `{ASE R} `{Torch R} `{Utils R}.

Lemma md_is_not_geometry : "md" ≠ "geometry".
Proof. discriminate. Qed.

(** [calculate] is: store the atoms, build the input bundle, run the
    model on it, write the results. *)
Lemma calculate_unfold w atoms properties system_changes
    (self : XeqCalculator R) :
  calculate w atoms properties system_changes self
  = let self1 := with_atoms atoms self in
    match self_atoms self1 with
    | None =>
        (self1,
         Raise (AttributeError "'NoneType' object has no attribute 'positions'"))
    | Some a =>
        match model_inputs_of self1 a self1 with
        | (self2, Ok model_inputs) =>
            match model self1 model_inputs with
            | Ok model_res => write_results self1 a model_res self2
            | Raise e => (self2, Raise e)
            end
        | (self2, Raise e) => (self2, Raise e)
        end
    end.
Proof.
  unfold calculate, bind, get, Calculator_calculate, with_atoms, lift.
  destruct atoms as [a |]; simpl.
  - destruct (model_inputs_of _ a _) as [s [i | e]]; [| reflexivity].
    destruct (model _ i); reflexivity.
  - unfold ret. destruct (self_atoms self) as [a |]; [| reflexivity].
    destruct (model_inputs_of _ a _) as [s [i | e]]; [| reflexivity].
    destruct (model _ i); reflexivity.
Qed.

Lemma with_atoms_model_type atoms (self : XeqCalculator R) :
  model_type (with_atoms atoms self) = model_type self.
Proof. destruct atoms; reflexivity. Qed.

Lemma with_atoms_model atoms (self : XeqCalculator R) :
  model (with_atoms atoms self) = model self.
Proof. destruct atoms; reflexivity. Qed.

Lemma with_atoms_parameters atoms (self : XeqCalculator R) :
  parameters (with_atoms atoms self) = parameters self.
Proof. destruct atoms; reflexivity. Qed.

Lemma with_atoms_results atoms (self : XeqCalculator R) :
  results (with_atoms atoms self) = results self.
Proof. destruct atoms; reflexivity. Qed.

(** Building the input bundle leaves the calculator as it is. *)
Lemma model_inputs_of_state (self : XeqCalculator R) a s :
  (model_inputs_of self a s).1 = s.
Proof.
  unfold model_inputs_of, coord_of, bind, ret, raise, lift.
  repeat case_decide; simpl; try reflexivity.
  all: destruct (radius_graph_pbc _ _ _ _ _); reflexivity.
Qed.

(** The bundle of the [geometry] variant. *)
Lemma model_inputs_of_geometry (self : XeqCalculator R) a s :
  model_type self = "geometry" →
  model_inputs_of self a s
  = (s, Ok (<["spin" := PyInt (spin (parameters self))]>
            (<["charge" := PyInt (charge (parameters self))]>
            (<["coord" := Tensor (amap to_default_dtype
                                    (amap (λ x, fdiv x Bohr) (positions a)))]>
            (<["at_no" := LongTensor (numbers a)]> ∅))))).
Proof.
  intros G. unfold model_inputs_of, coord_of, bind, ret. rewrite G.
  reflexivity.
Qed.

(** The bundle of the [md] variant. *)
Lemma model_inputs_of_md (self : XeqCalculator R) a s :
  model_type self = "md" →
  model_inputs_of self a s
  = match radius_graph_pbc (positions a) (pbc a) (cell a)
            (cutoff (parameters self)) (max_edges (parameters self)) with
    | Ok graph =>
        (s, Ok (<["shifts" := Tensor (amap to_default_dtype graph.2)]>
                (<["edge_index" := LongTensor graph.1]>
                (<["spin" := PyInt (spin (parameters self))]>
                (<["charge" := PyInt (charge (parameters self))]>
                (<["coord" := Tensor (amap to_default_dtype (positions a))]>
                (<["at_no" := LongTensor (numbers a)]> ∅)))))))
    | Raise e => (s, Raise e)
    end.
Proof.
  intros G. unfold model_inputs_of, coord_of, bind, ret, lift. rewrite G.
  simpl. destruct (radius_graph_pbc _ _ _ _ _); reflexivity.
Qed.

(** What the [geometry] variant writes. *)
Lemma write_results_geometry (self : XeqCalculator R) a res s
    energy e gradient :
  model_type self = "geometry" →
  res !! "energy" = Some energy → item energy = Ok e →
  res !! "gradient" = Some gradient →
  ∃ s', write_results self a res s = (s', Ok tt) ∧
    results s'
    = <["forces" := amap (λ x, fdiv (fmul (fneg x) Hartree) Bohr) gradient]>
      (<["energy" := Scalar (fmul e Hartree)]> (results s)).
Proof.
  intros G He Hi Hg.
  unfold write_results, bind, getitem, lift, set_result, modify, ret.
  rewrite G. simpl. rewrite He. simpl. rewrite Hi. simpl. rewrite Hg. simpl.
  eexists. split; reflexivity.
Qed.

(** What the [md] variant writes when the cell is not of rank 3: the
    model is asked for no virial. *)
Lemma write_results_md_flat (self : XeqCalculator R) a res s
    energy e forces energies :
  model_type self = "md" → cell_rank (cell a) ≠ 3%nat →
  res !! "energy" = Some energy → item energy = Ok e →
  res !! "forces" = Some forces → res !! "energies" = Some energies →
  ∃ s', write_results self a res s = (s', Ok tt) ∧
    results s'
    = <["energies" := energies]>
      (<["forces" := forces]>
      (<["energy" := Scalar e]> (results s))).
Proof.
  intros G Hr He Hi Hf Hn.
  unfold write_results, bind, getitem, lift, set_result, modify, ret.
  rewrite G. simpl. rewrite He. simpl. rewrite Hi. simpl. rewrite Hf. simpl.
  rewrite Hn. simpl. rewrite decide_False by exact Hr.
  eexists. split; reflexivity.
Qed.

(** What the [md] variant writes when the cell is of rank 3. *)
Lemma write_results_md_3d (self : XeqCalculator R) a res s
    energy e forces energies virials virial stress stresses :
  model_type self = "md" → cell_rank (cell a) = 3%nat →
  res !! "energy" = Some energy → item energy = Ok e →
  res !! "forces" = Some forces → res !! "energies" = Some energies →
  res !! "virials" = Some virials → res !! "virial" = Some virial →
  full_3x3_to_voigt_6_stress virial = Ok stress →
  full_3x3_to_voigt_6_stress virials = Ok stresses →
  ∃ s', write_results self a res s = (s', Ok tt) ∧
    results s'
    = <["stresses" := amap (λ x, fdiv x (get_volume a)) stresses]>
      (<["stress" := amap (λ x, fdiv x (get_volume a)) stress]>
      (<["energies" := energies]>
      (<["forces" := forces]>
      (<["energy" := Scalar e]> (results s))))).
Proof.
  intros G Hr He Hi Hf Hn Hvs Hv Hs Hss.
  unfold write_results, bind, getitem, lift, set_result, modify, ret.
  rewrite G. simpl. rewrite He. simpl. rewrite Hi. simpl. rewrite Hf. simpl.
  rewrite Hn. simpl. rewrite decide_True by exact Hr.
  rewrite Hvs. simpl. rewrite Hv. simpl. rewrite Hs. simpl. rewrite Hss.
  simpl. eexists. split; reflexivity.
Qed.

(** Whatever becomes of the stress entries, the [md] variant has written
    the energy and the forces of the model as they are. *)
Lemma write_results_md_energy_forces (self : XeqCalculator R) a res s
    energy e forces energies :
  model_type self = "md" →
  res !! "energy" = Some energy → item energy = Ok e →
  res !! "forces" = Some forces → res !! "energies" = Some energies →
  results (write_results self a res s).1 !! "energy" = Some (Scalar e) ∧
  results (write_results self a res s).1 !! "forces" = Some forces.
Proof.
  intros G He Hi Hf Hn.
  unfold write_results, bind, getitem, lift, set_result, modify, ret, raise.
  rewrite G. simpl. rewrite He. simpl. rewrite Hi. simpl. rewrite Hf. simpl.
  rewrite Hn. simpl. case_decide; [| simpl; by simplify_map_eq].
  destruct (res !! "virials"); [| simpl; by simplify_map_eq].
  destruct (res !! "virial") as [v |]; [| simpl; by simplify_map_eq].
  simpl. destruct (full_3x3_to_voigt_6_stress v); [| simpl; by simplify_map_eq].
  simpl. destruct (full_3x3_to_voigt_6_stress _); simpl; by simplify_map_eq.
Qed.

(** Unless the variant is [md] and the cell is of rank 3, no entry other
    than the energy, the forces and the energies is written, whether the
    call returns or raises. *)
Lemma write_results_frame (self : XeqCalculator R) a res s key :
  model_type self = "geometry" ∨ cell_rank (cell a) ≠ 3%nat →
  key ≠ "energy" → key ≠ "forces" → key ≠ "energies" →
  results (write_results self a res s).1 !! key = results s !! key.
Proof.
  intros G K1 K2 K3.
  unfold write_results, bind, getitem, lift, set_result, modify, ret, raise.
  case_decide as G1.
  - destruct (res !! "energy") as [en |]; [| reflexivity]. simpl.
    destruct (item en); [| reflexivity]. simpl.
    destruct (res !! "gradient"); simpl; by simplify_map_eq.
  - destruct G as [G | G]; [contradiction |].
    case_decide; [| reflexivity].
    destruct (res !! "energy") as [en |]; [| reflexivity]. simpl.
    destruct (item en); [| reflexivity]. simpl.
    destruct (res !! "forces"); [| simpl; by simplify_map_eq]. simpl.
    destruct (res !! "energies"); [| simpl; by simplify_map_eq]. simpl.
    rewrite decide_False by exact G. simpl. by simplify_map_eq.
Qed.

(** The requested properties play no part in [calculate]. *)
Lemma calculate_properties_irrelevant w w' atoms properties properties'
    system_changes system_changes' (self : XeqCalculator R) :
  calculate w atoms properties system_changes self
  = calculate w' atoms properties' system_changes' self.
Proof. rewrite !calculate_unfold. reflexivity. Qed.

(** Unless the variant is [md] and the cell is of rank 3, the call
    returns normally as soon as the model supplies the basic outputs. *)
Lemma calculate_returns w (self : XeqCalculator R) atoms properties
    system_changes a model_inputs res :
  self_atoms (with_atoms atoms self) = Some a →
  model_type self = "geometry" ∨ cell_rank (cell a) ≠ 3%nat →
  model_inputs_of (with_atoms atoms self) a (with_atoms atoms self)
  = (with_atoms atoms self, Ok model_inputs) →
  model self model_inputs = Ok res →
  basic_outputs_ok self res →
  (calculate w atoms properties system_changes self).2 = Ok tt.
Proof.
  intros Ha G Hin Hm [(energy & e & He & Hi) Hrest].
  rewrite calculate_unfold. simpl. rewrite Ha, Hin, with_atoms_model, Hm.
  destruct (decide (model_type self = "geometry")) as [G1 | G1].
  - destruct Hrest as [gradient Hg].
    destruct (write_results_geometry (with_atoms atoms self) a res
                (with_atoms atoms self) energy e gradient)
      as (s' & Hw & _); try done.
    { by rewrite with_atoms_model_type. }
    by rewrite Hw.
  - destruct G as [G | G]; [contradiction |].
    destruct Hrest as [[forces Hf] [energies Hn]].
    destruct (decide (model_type self = "md")) as [G2 | G2].
    + destruct (write_results_md_flat (with_atoms atoms self) a res
                  (with_atoms atoms self) energy e forces energies)
        as (s' & Hw & _); try done.
      { by rewrite with_atoms_model_type. }
      by rewrite Hw.
    + unfold write_results. rewrite with_atoms_model_type.
      rewrite !decide_False by done. reflexivity.
Qed.

(** Unless the variant is [md] and the cell is of rank 3, [calculate]
    writes no entry other than the energy, the forces and the energies,
    whether it returns or raises. *)
Lemma calculate_frame w (self : XeqCalculator R) atoms properties
    system_changes a key :
  self_atoms (with_atoms atoms self) = Some a →
  model_type self = "geometry" ∨ cell_rank (cell a) ≠ 3%nat →
  key ≠ "energy" → key ≠ "forces" → key ≠ "energies" →
  results (calculate w atoms properties system_changes self).1 !! key
  = results self !! key.
Proof.
  intros Ha G K1 K2 K3.
  rewrite calculate_unfold. simpl. rewrite Ha.
  assert (Hst := model_inputs_of_state (with_atoms atoms self) a
                   (with_atoms atoms self)).
  destruct (model_inputs_of _ a _) as [s2 [model_inputs | e]];
    simpl in Hst; subst s2; [| simpl; by rewrite with_atoms_results].
  destruct (model _ model_inputs) as [res | e];
    [| simpl; by rewrite with_atoms_results].
  rewrite write_results_frame, with_atoms_results; try done.
  by rewrite with_atoms_model_type.
Qed.
End CalculatorFacts.

(** ** The claims on [calculate] *)

Section CalculateClaims.
Context {R : Type} `{Float R} `{ASE R} `{Torch R} `{Utils R}.

(** C1. Under the [geometry] variant the coordinates handed to the model
    are the caller's positions divided by [Bohr] (and brought to the
    default dtype); the energy written to the results is the model's
    energy times [Hartree], and the forces are the model's gradient,
    negated, times [Hartree], divided by [Bohr]. *)
Theorem geometry_unit_conversion w (self : XeqCalculator R) atoms
    properties system_changes a :
  model_type self = "geometry" →
  self_atoms (with_atoms atoms self) = Some a →
  ∃ model_inputs,
    model_inputs_of (with_atoms atoms self) a (with_atoms atoms self)
    = (with_atoms atoms self, Ok model_inputs) ∧
    model_inputs !! "coord"
    = Some (Tensor (amap to_default_dtype
                      (amap (λ x, fdiv x Bohr) (positions a)))) ∧
    ∀ res energy e gradient,
      model self model_inputs = Ok res →
      res !! "energy" = Some energy → item energy = Ok e →
      res !! "gradient" = Some gradient →
      ∃ self',
        calculate w atoms properties system_changes self = (self', Ok tt) ∧
        results self' !! "energy" = Some (Scalar (fmul e Hartree)) ∧
        results self' !! "forces"
        = Some (amap (λ x, fdiv (fmul (fneg x) Hartree) Bohr) gradient).
Proof.
  intros G Ha. eexists. split; [| split].
  - apply model_inputs_of_geometry. by rewrite with_atoms_model_type.
  - by simplify_map_eq.
  - intros res energy e gradient Hm He Hi Hg.
    rewrite calculate_unfold. simpl. rewrite Ha.
    rewrite model_inputs_of_geometry by (by rewrite with_atoms_model_type).
    rewrite with_atoms_model, Hm.
    destruct (write_results_geometry (with_atoms atoms self) a res
                (with_atoms atoms self) energy e gradient)
      as (s' & Hw & Hr); try done.
    { by rewrite with_atoms_model_type. }
    exists s'. rewrite Hw, Hr. split; [done |]. by simplify_map_eq.
Qed.

(** C6. Under the [md] variant the positions go to the neighbour builder
    and to the model as the caller gave them (brought to the default
    dtype, divided by nothing), the cutoff goes to the builder as it is,
    and the energy and the forces written to the results are those of
    the model, unchanged; the call returns normally when the cell is not
    of rank 3 or the model supplies the virials. *)
Theorem md_no_unit_conversion w (self : XeqCalculator R) atoms
    properties system_changes a graph :
  model_type self = "md" →
  self_atoms (with_atoms atoms self) = Some a →
  radius_graph_pbc (positions a) (pbc a) (cell a)
    (cutoff (parameters self)) (max_edges (parameters self)) = Ok graph →
  ∃ model_inputs,
    model_inputs_of (with_atoms atoms self) a (with_atoms atoms self)
    = (with_atoms atoms self, Ok model_inputs) ∧
    model_inputs !! "coord"
    = Some (Tensor (amap to_default_dtype (positions a))) ∧
    ∀ res energy e forces energies,
      model self model_inputs = Ok res →
      res !! "energy" = Some energy → item energy = Ok e →
      res !! "forces" = Some forces → res !! "energies" = Some energies →
      ∃ self' r,
        calculate w atoms properties system_changes self = (self', r) ∧
        results self' !! "energy" = Some (Scalar e) ∧
        results self' !! "forces" = Some forces ∧
        (cell_rank (cell a) ≠ 3%nat ∨ stress_outputs_ok res → r = Ok tt).
Proof.
  intros G Ha Hg.
  assert (G' : model_type (with_atoms atoms self) = "md")
    by (by rewrite with_atoms_model_type).
  assert (Hin := model_inputs_of_md (with_atoms atoms self) a
                   (with_atoms atoms self) G').
  rewrite with_atoms_parameters, Hg in Hin.
  eexists. split; [exact Hin | split; [by simplify_map_eq |]].
  intros res energy e forces energies Hm He Hi Hf Hn.
  rewrite calculate_unfold. simpl. rewrite Ha, Hin, with_atoms_model, Hm.
  destruct (write_results_md_energy_forces (with_atoms atoms self) a res
              (with_atoms atoms self) energy e forces energies)
    as [Hre Hrf]; try done.
  destruct (write_results _ a res _) as [self' r] eqn:Hw.
  exists self', r. split; [done |]. split; [exact Hre |].
  split; [exact Hrf |].
  intros Hok.
  destruct (decide (cell_rank (cell a) = 3%nat)) as [Hr | Hr].
  - destruct Hok as [Hok | (vs & v & st & sts & Hvs & Hv & Hs & Hss)];
      [contradiction |].
    destruct (write_results_md_3d (with_atoms atoms self) a res
                (with_atoms atoms self) energy e forces energies
                vs v st sts) as (s' & Hw' & _); try done.
    rewrite Hw in Hw'. by injection Hw'.
  - destruct (write_results_md_flat (with_atoms atoms self) a res
                (with_atoms atoms self) energy e forces energies)
      as (s' & Hw' & _); try done.
    rewrite Hw in Hw'. by injection Hw'.
Qed.

(** C7. Whenever [calculate] runs the model, the input bundle has the
    keys of the atomic numbers, the coordinates, the charge and the
    spin, and it has the edge index and the shifts exactly when the
    variant is [md]. *)
Theorem input_bundle_keys w (self : XeqCalculator R) atoms properties
    system_changes a self2 model_inputs :
  self_atoms (with_atoms atoms self) = Some a →
  model_inputs_of (with_atoms atoms self) a (with_atoms atoms self)
  = (self2, Ok model_inputs) →
  calculate w atoms properties system_changes self
  = match model self model_inputs with
    | Ok model_res =>
        write_results (with_atoms atoms self) a model_res self2
    | Raise e => (self2, Raise e)
    end ∧
  is_Some (model_inputs !! "at_no") ∧
  is_Some (model_inputs !! "coord") ∧
  is_Some (model_inputs !! "charge") ∧
  is_Some (model_inputs !! "spin") ∧
  (is_Some (model_inputs !! "edge_index") ↔ model_type self = "md") ∧
  (is_Some (model_inputs !! "shifts") ↔ model_type self = "md").
Proof.
  intros Ha Hin. split.
  { rewrite calculate_unfold. simpl.
    rewrite Ha, Hin, with_atoms_model. reflexivity. }
  rewrite <- (with_atoms_model_type atoms self).
  revert Hin. generalize (with_atoms atoms self). intros s1.
  unfold model_inputs_of, coord_of, bind, ret, raise, lift.
  destruct (decide (model_type s1 = "geometry")) as [G | G].
  - rewrite G. simpl. intros [= <- <-].
    repeat split; try (by simplify_map_eq); try discriminate.
    all: intros [? E]; by simplify_map_eq.
  - destruct (decide (model_type s1 = "md")) as [G' | G'];
      [| discriminate].
    destruct (radius_graph_pbc _ _ _ _ _); [| discriminate].
    simpl. intros [= <- <-].
    repeat split; by simplify_map_eq.
Qed.

(** C4, as the code has it. Under the [md] variant, on a configuration
    whose cell is not of rank 3, whatever its periodicity flags, the call
    writes no [stress] and no [stresses] entry, whatever properties were
    requested: both are after the call what they were before it, absent
    if they were absent; and the call returns normally on the energy,
    forces and energies alone, the model being asked for no virial. *)
Theorem md_low_rank_writes_no_stress w (self : XeqCalculator R) atoms
    properties system_changes a :
  model_type self = "md" →
  self_atoms (with_atoms atoms self) = Some a →
  cell_rank (cell a) ≠ 3%nat →
  let out := calculate w atoms properties system_changes self in
  results out.1 !! "stress" = results self !! "stress" ∧
  results out.1 !! "stresses" = results self !! "stresses" ∧
  ∀ model_inputs res,
    model_inputs_of (with_atoms atoms self) a (with_atoms atoms self)
    = (with_atoms atoms self, Ok model_inputs) →
    model self model_inputs = Ok res →
    basic_outputs_ok self res → out.2 = Ok tt.
Proof.
  intros G Ha Hr out. subst out.
  rewrite !(calculate_frame w self atoms properties system_changes a)
    by (auto || done).
  split; [reflexivity |]. split; [reflexivity |].
  intros model_inputs res Hin Hm Hok.
  eapply calculate_returns; eauto.
Qed.

(** C2, as the code has it. A request for [stress] that cannot be met
    (the variant is [geometry], or the cell is not of rank 3) raises
    nothing: the call is the very call without [stress] among the
    requested properties, it writes no [stress] entry, neither a zero
    tensor nor any other, and it returns normally as soon as the model
    supplies the basic outputs of the variant. *)
Theorem stress_request_has_no_effect w (self : XeqCalculator R) atoms
    (properties : list string) system_changes a :
  "stress" ∈ properties →
  self_atoms (with_atoms atoms self) = Some a →
  model_type self = "geometry" ∨ cell_rank (cell a) ≠ 3%nat →
  let out := calculate w atoms (Some properties) system_changes self in
  out = calculate w atoms (Some (filter (λ p, p ≠ "stress") properties))
          system_changes self ∧
  results out.1 !! "stress" = results self !! "stress" ∧
  ∀ model_inputs res,
    model_inputs_of (with_atoms atoms self) a (with_atoms atoms self)
    = (with_atoms atoms self, Ok model_inputs) →
    model self model_inputs = Ok res →
    basic_outputs_ok self res → out.2 = Ok tt.
Proof.
  intros _ Ha G out. subst out. split; [| split].
  - apply calculate_properties_irrelevant.
  - by apply calculate_frame with (a := a).
  - intros model_inputs res Hin Hm Hok. eapply calculate_returns; eauto.
Qed.

(** C3, as the code has it. Under the [md] variant, on a cell of rank 3,
    the stress written to the results is the conversion
    [full_3x3_to_voigt_6_stress] of the model's virial, divided by the
    volume of the cell, and the stresses are likewise made of the
    virials; the virial is put to no test of symmetry: the call returns
    normally on every virial that the conversion accepts. *)
Theorem md_stress_from_virial w (self : XeqCalculator R) atoms
    properties system_changes a model_inputs res
    energy e forces energies virials virial stress stresses :
  model_type self = "md" →
  self_atoms (with_atoms atoms self) = Some a →
  cell_rank (cell a) = 3%nat →
  model_inputs_of (with_atoms atoms self) a (with_atoms atoms self)
  = (with_atoms atoms self, Ok model_inputs) →
  model self model_inputs = Ok res →
  res !! "energy" = Some energy → item energy = Ok e →
  res !! "forces" = Some forces → res !! "energies" = Some energies →
  res !! "virials" = Some virials → res !! "virial" = Some virial →
  full_3x3_to_voigt_6_stress virial = Ok stress →
  full_3x3_to_voigt_6_stress virials = Ok stresses →
  ∃ self',
    calculate w atoms properties system_changes self = (self', Ok tt) ∧
    results self' !! "stress"
    = Some (amap (λ x, fdiv x (get_volume a)) stress) ∧
    results self' !! "stresses"
    = Some (amap (λ x, fdiv x (get_volume a)) stresses).
Proof.
  intros G Ha Hr Hin Hm He Hi Hf Hn Hvs Hv Hs Hss.
  rewrite calculate_unfold. simpl. rewrite Ha, Hin, with_atoms_model, Hm.
  destruct (write_results_md_3d (with_atoms atoms self) a res
              (with_atoms atoms self) energy e forces energies
              virials virial stress stresses) as (s' & Hw & Hres);
    try done.
  { by rewrite with_atoms_model_type. }
  exists s'. rewrite Hw, Hres. split; [done |]. by simplify_map_eq.
Qed.
End CalculateClaims.

Section Witnesses.
Import Rational.
#[local] Existing Instance Q_Float.
#[local] Existing Instance Q_Torch.
#[local] Existing Instance Q_Utils.

Lemma geometry_unit_conversion_witness :
  let ase := Q_ASE voigt_symmetrized in
  let self := calculator_of "geometry" (constant_model geometry_output) in
  model_type self = "geometry" ∧
  ∃ self',
    calculate initial_world (Some hydrogen) None [] self = (self', Ok tt) ∧
    results self' !! "energy"
    = Some (Scalar (fmul (-1 # 2)%Q Hartree)) ∧
    results self' !! "forces"
    = Some (amap (λ x, fdiv (fmul (fneg x) Hartree) Bohr)
              (Array [vec 1 (-2) 0])).
Proof.
  intros ase self. split; [reflexivity |].
  destruct (geometry_unit_conversion (H0 := ase) initial_world self
              (Some hydrogen) None [] hydrogen eq_refl eq_refl)
    as (model_inputs & _ & _ & Hres).
  apply (Hres geometry_output (Array [Scalar (-1 # 2)%Q])); reflexivity.
Defined.

(** C2, as the specification has it, fails: a [geometry] calculator asked
    for [stress] on a single atom without a cell, and an [md] calculator
    asked for it on a chain whose cell has rank 1, both return normally,
    with no [stress] entry in the results. *)
Lemma stress_request_returns_normally :
  let ase := Q_ASE voigt_symmetrized in
  let geo :=
    calculate initial_world (Some hydrogen) (Some ["stress"]) []
      (calculator_of "geometry" (constant_model geometry_output)) in
  let md :=
    calculate initial_world (Some chain) (Some ["stress"]) []
      (calculator_of "md" (constant_model (md_output asymmetric_virial))) in
  (geo.2 = Ok tt ∧ results geo.1 !! "stress" = None) ∧
  (cell_rank (cell chain) = 1%nat ∧
   md.2 = Ok tt ∧ results md.1 !! "stress" = None).
Proof. vm_compute. repeat split. Qed.

Lemma stress_request_has_no_effect_witness :
  let ase := Q_ASE voigt_symmetrized in
  let self := calculator_of "md" (constant_model (md_output asymmetric_virial)) in
  let out := calculate initial_world (Some chain) (Some ["stress"]) [] self in
  "stress" ∈ ["stress"] ∧
  out = calculate initial_world (Some chain) (Some []) [] self ∧
  results out.1 !! "stress" = None ∧ out.2 = Ok tt.
Proof.
  intros ase self out.
  destruct (stress_request_has_no_effect (H0 := ase) initial_world self
              (Some chain) ["stress"] [] chain)
    as (Hsame & Hframe & Hret).
  - apply list_elem_of_singleton. reflexivity.
  - reflexivity.
  - right. vm_compute. discriminate.
  - split; [apply list_elem_of_singleton; reflexivity |].
    split; [exact Hsame |]. split; [exact Hframe |].
    eapply Hret.
    + vm_compute. reflexivity.
    + reflexivity.
    + split.
      * exists (Scalar (-3)%Q), (-3)%Q. split; reflexivity.
      * simpl. split; eexists; reflexivity.
Defined.

(** C3, as the specification has it, fails when the conversion reads the
    entries above the diagonal only: the virial with xy = 6 and yx = 2 is
    not rejected, its stress is that of the virial whose entries below
    the diagonal are altogether different, and the xy component is
    6 / 64, not the symmetrized (6 + 2) / 2 / 64. *)
Lemma asymmetric_virial_silently_truncated :
  let ase := Q_ASE voigt_upper in
  let run virial :=
    calculate initial_world (Some crystal) (Some ["stress"]) []
      (calculator_of "md" (constant_model (md_output virial))) in
  cell_rank (cell crystal) = 3%nat ∧
  get_volume crystal = 64%Q ∧
  (run asymmetric_virial).2 = Ok tt ∧
  results (run asymmetric_virial).1 !! "stress"
  = results (run other_virial).1 !! "stress" ∧
  ∃ xx yy zz yz xz xy,
    results (run asymmetric_virial).1 !! "stress"
    = Some (Array [Scalar xx; Scalar yy; Scalar zz;
                   Scalar yz; Scalar xz; Scalar xy]) ∧
    (xy == 6 / 64)%Q ∧ ¬ (xy == (6 + 2) / 2 / 64)%Q.
Proof.
  intros ase run. repeat split; try (vm_compute; reflexivity).
  exists (1 # 64)%Q, (1 # 64)%Q, (1 # 64)%Q, (0 # 128)%Q, (0 # 128)%Q,
    (12 # 128)%Q.
  split; [vm_compute; reflexivity |]. split; [reflexivity |].
  intros E. vm_compute in E. discriminate.
Qed.

Lemma md_stress_from_virial_witness :
  let ase := Q_ASE voigt_symmetrized in
  let self := calculator_of "md" (constant_model (md_output asymmetric_virial)) in
  model_type self = "md" ∧ cell_rank (cell crystal) = 3%nat ∧
  ∃ self' stress stresses,
    full_3x3_to_voigt_6_stress asymmetric_virial = Ok stress ∧
    full_3x3_to_voigt_6_stress (Array [asymmetric_virial; asymmetric_virial])
    = Ok stresses ∧
    calculate initial_world (Some crystal) None [] self = (self', Ok tt) ∧
    results self' !! "stress"
    = Some (amap (λ x, fdiv x (get_volume crystal)) stress) ∧
    results self' !! "stresses"
    = Some (amap (λ x, fdiv x (get_volume crystal)) stresses).
Proof.
  intros ase self. split; [reflexivity |]. split; [reflexivity |].
  destruct (full_3x3_to_voigt_6_stress asymmetric_virial)
    as [stress |] eqn:Hs; [| discriminate].
  destruct (full_3x3_to_voigt_6_stress
              (Array [asymmetric_virial; asymmetric_virial]))
    as [stresses |] eqn:Hss; [| discriminate].
  destruct (model_inputs_of (with_atoms (Some crystal) self) crystal
              (with_atoms (Some crystal) self))
    as [s2 [model_inputs |]] eqn:Hin; [| discriminate].
  assert (Hst := model_inputs_of_state (with_atoms (Some crystal) self)
                   crystal (with_atoms (Some crystal) self)).
  rewrite Hin in Hst. simpl in Hst. subst s2.
  destruct (md_stress_from_virial (H0 := ase) initial_world self
              (Some crystal) None [] crystal model_inputs
              (md_output asymmetric_virial)
              (Scalar (-3)%Q) (-3)%Q
              (Array [vec 1 0 0; vec (-1) 0 0])
              (Array [Scalar (-1)%Q; Scalar (-2)%Q])
              (Array [asymmetric_virial; asymmetric_virial])
              asymmetric_virial stress stresses)
    as (self' & Hc & Hst' & Hsts'); try reflexivity; try assumption.
  exists self', stress, stresses. repeat split; assumption.
Defined.

Lemma md_no_unit_conversion_witness :
  let ase := Q_ASE voigt_symmetrized in
  let self := calculator_of "md" (constant_model (md_output asymmetric_virial)) in
  model_type self = "md" ∧
  ∃ self' r,
    calculate initial_world (Some crystal) None [] self = (self', r) ∧
    results self' !! "energy" = Some (Scalar (-3)%Q) ∧
    results self' !! "forces" = Some (Array [vec 1 0 0; vec (-1) 0 0]).
Proof.
  intros ase self. split; [reflexivity |].
  destruct (radius_graph_pbc (positions crystal) (pbc crystal)
              (cell crystal) (cutoff (parameters self))
              (max_edges (parameters self))) as [graph |] eqn:Hg;
    [| discriminate].
  destruct (md_no_unit_conversion (H0 := ase) initial_world self
              (Some crystal) None [] crystal graph eq_refl eq_refl Hg)
    as (model_inputs & _ & _ & Hres).
  destruct (Hres (md_output asymmetric_virial) (Scalar (-3)%Q) (-3)%Q
              (Array [vec 1 0 0; vec (-1) 0 0])
              (Array [Scalar (-1)%Q; Scalar (-2)%Q]))
    as (self' & r & Hc & He & Hf & _); try reflexivity.
  exists self', r. repeat split; assumption.
Defined.

Lemma input_bundle_keys_witness :
  let ase := Q_ASE voigt_symmetrized in
  let self := calculator_of "md" (constant_model (md_output asymmetric_virial)) in
  ∃ model_inputs,
    (model_inputs_of (with_atoms (Some chain) self) chain
       (with_atoms (Some chain) self)).2 = Ok model_inputs ∧
    is_Some (model_inputs !! "at_no") ∧
    is_Some (model_inputs !! "edge_index") ∧
    is_Some (model_inputs !! "shifts").
Proof.
  intros ase self.
  destruct (model_inputs_of (with_atoms (Some chain) self) chain
              (with_atoms (Some chain) self))
    as [s2 [model_inputs |]] eqn:Hin; [| discriminate].
  exists model_inputs. split; [reflexivity |].
  destruct (input_bundle_keys (H0 := ase) initial_world self (Some chain)
              None [] chain s2 model_inputs eq_refl Hin)
    as (_ & Hat & _ & _ & _ & He & Hs).
  split; [exact Hat |]. split; [apply He | apply Hs]; reflexivity.
Defined.

(** C4, as the specification has it, fails twice over. The test is on the
    rank of the cell, not on the periodicity flags: two atoms in a cell
    with three lattice vectors get a stress and stresses when no axis is
    periodic, and when two are. And the results are not cleared: after an
    evaluation of the crystal, the evaluation of the chain, whose cell has
    rank 1, leaves the stress of the crystal in the results. *)
Lemma stress_without_full_periodicity :
  let ase := Q_ASE voigt_symmetrized in
  let self := calculator_of "md" (constant_model (md_output asymmetric_virial)) in
  let in_box flags : Atoms Q :=
    {| positions := Array [vec 0 0 0; vec 1 0 0];
       numbers := Array [Scalar 1%Z; Scalar 1%Z];
       pbc := flags;
       cell := Array [vec 4 0 0; vec 0 4 0; vec 0 0 4] |} in
  let run a :=
    calculate initial_world (Some a) (Some ["stress"; "stresses"]) [] self in
  let molecule := run (in_box (false, false, false)) in
  let slab := run (in_box (true, true, false)) in
  let first := run crystal in
  let second :=
    calculate initial_world (Some chain) (Some ["stress"; "stresses"]) []
      first.1 in
  (molecule.2 = Ok tt ∧
   is_Some (results molecule.1 !! "stress") ∧
   is_Some (results molecule.1 !! "stresses")) ∧
  (slab.2 = Ok tt ∧
   is_Some (results slab.1 !! "stress") ∧
   is_Some (results slab.1 !! "stresses")) ∧
  (pbc chain = (true, false, false) ∧ cell_rank (cell chain) = 1%nat ∧
   second.2 = Ok tt ∧
   is_Some (results second.1 !! "stress") ∧
   is_Some (results second.1 !! "stresses")).
Proof.
  intros ase self in_box run molecule slab first second.
  repeat split; try (vm_compute; reflexivity); vm_compute; eexists;
    reflexivity.
Qed.

Lemma md_low_rank_writes_no_stress_witness :
  let ase := Q_ASE voigt_symmetrized in
  let self := calculator_of "md" (constant_model (md_output asymmetric_virial)) in
  let out :=
    calculate initial_world (Some chain) (Some ["stress"; "stresses"]) []
      self in
  cell_rank (cell chain) ≠ 3%nat ∧
  results out.1 !! "stress" = None ∧ results out.1 !! "stresses" = None ∧
  out.2 = Ok tt.
Proof.
  intros ase self out.
  assert (Hr : cell_rank (cell chain) ≠ 3%nat) by (vm_compute; discriminate).
  destruct (model_inputs_of (with_atoms (Some chain) self) chain
              (with_atoms (Some chain) self))
    as [s2 [model_inputs |]] eqn:Hin; [| discriminate].
  assert (Hst := model_inputs_of_state (with_atoms (Some chain) self)
                   chain (with_atoms (Some chain) self)).
  rewrite Hin in Hst. simpl in Hst. subst s2.
  destruct (md_low_rank_writes_no_stress (H0 := ase) initial_world self
              (Some chain) (Some ["stress"; "stresses"]) [] chain
              eq_refl eq_refl Hr)
    as (Hs & Hss & Hret).
  split; [exact Hr |]. split; [exact Hs |]. split; [exact Hss |].
  apply (Hret model_inputs (md_output asymmetric_virial) Hin eq_refl).
  split.
  - exists (Scalar (-3)%Q), (-3)%Q. split; reflexivity.
  - simpl. split; eexists; reflexivity.
Defined.
End Witnesses.

(** ** The claims on construction *)

Section InitClaims.
Context {R : Type} `{Float R} `{Torch R}.

(** A construction with a valid variant tag extends the list of the
    class, whether a model is found or not. *)
Lemma init_implemented_properties model_type ckpt_file
    (model : option (Model R)) kwargs w :
  implemented_properties (__init__ model_type ckpt_file model kwargs w).1
  = implemented_properties w ++
    (if decide (model_type = "md") then md_properties
     else if decide (model_type = "geometry") then ["gradient"]
     else []).
Proof.
  unfold __init__, bind, raise, ret, iadd_implemented_properties, modify,
    torch_jit_load.
  destruct (decide (model_type = "md")) as [-> | Hmd]; simpl.
  - destruct model as [m |]; [reflexivity |].
    destruct ckpt_file as [f |]; simpl; [| reflexivity].
    destruct (jit_load f); reflexivity.
  - destruct (decide (model_type = "geometry")) as [-> | Hgeo]; simpl.
    + destruct model as [m |]; [reflexivity |].
      destruct ckpt_file as [f |]; simpl; [| reflexivity].
      destruct (jit_load f); reflexivity.
    + rewrite bool_decide_eq_true_2.
      * simpl. by rewrite app_nil_r.
      * intros I. apply elem_of_cons in I as [-> | I]; [done |].
        apply list_elem_of_singleton in I. done.
Qed.

(** Constructions never remove an entry of the list of the class. *)
Lemma construct_all_extends (l : list InitArgs) w :
  ∃ suffix,
    implemented_properties (construct_all l w)
    = implemented_properties w ++ suffix.
Proof.
  revert w. induction l as [| args l IH]; intros w.
  - exists []. simpl. by rewrite app_nil_r.
  - destruct (IH (__init__ (arg_model_type args) (arg_ckpt_file args)
                    (arg_model args) (arg_kwargs args) w).1)
      as [suffix E].
    change (construct_all (args :: l) w)
      with (construct_all l
              (__init__ (arg_model_type args) (arg_ckpt_file args)
                 (arg_model args) (arg_kwargs args) w).1).
    rewrite E, init_implemented_properties.
    rewrite <- app_assoc. eexists. reflexivity.
Qed.

(** C9. The list [implemented_properties] belongs to the class and is
    extended in place by every construction. Once an [md] calculator has
    been constructed, whatever is constructed afterwards, every
    calculator, of either variant, reports [energies], [stress],
    [stresses] and [forces]; one more [md] construction appends the four
    again, so the list has duplicates; and two [geometry] calculators
    constructed alike report different lists according to what was
    constructed before them. *)
Theorem implemented_properties_is_shared ckpt_file
    (model : option (Model R)) kwargs w (later : list InitArgs) :
  let w1 := (__init__ "md" ckpt_file model kwargs w).1 in
  let w2 := construct_all later w1 in
  (∀ (self : XeqCalculator R) p,
     p ∈ md_properties → p ∈ get_implemented_properties w2 self) ∧
  (∀ ckpt_file' model' kwargs',
     let w3 := (__init__ "md" ckpt_file' model' kwargs' w2).1 in
     implemented_properties w3 = implemented_properties w2 ++ md_properties ∧
     ¬ NoDup (implemented_properties w3)) ∧
  (∀ m kwargs',
     let fresh := __init__ "geometry" None (Some m) kwargs' initial_world in
     let after_md :=
       __init__ "geometry" None (Some m) kwargs'
         (__init__ "md" None (Some m) kwargs' initial_world).1 in
     is_Ok fresh.2 ∧ is_Ok after_md.2 ∧
     implemented_properties fresh.1 = ["energy"; "gradient"] ∧
     implemented_properties after_md.1
     = ["energy"; "energies"; "stress"; "stresses"; "forces"; "gradient"]).
Proof.
  intros w1 w2.
  assert (Hin : ∀ p, p ∈ md_properties → p ∈ implemented_properties w2).
  { intros p Hp. subst w2.
    destruct (construct_all_extends later w1) as [suffix ->].
    subst w1. rewrite init_implemented_properties. simpl.
    apply elem_of_app. left. apply elem_of_app. right. exact Hp. }
  split; [| split].
  - intros self p Hp. unfold get_implemented_properties. by apply Hin.
  - intros ckpt_file' model' kwargs' w3. subst w3.
    rewrite init_implemented_properties. simpl. split; [reflexivity |].
    intros ND. apply NoDup_app in ND as (_ & Hdisj & _).
    apply (Hdisj "energies").
    + apply Hin. by left.
    + by left.
  - intros m kwargs'. repeat split.
Qed.

Lemma valid_model_type model_type :
  model_type ∈ ["md"; "geometry"] →
  bool_decide (model_type ∉ ["md"; "geometry"]) = false.
Proof. intros I. apply bool_decide_eq_false_2. auto. Qed.

(** C10. With a valid variant tag, when both a model and a checkpoint
    file are given, construction succeeds with the given model, and the
    checkpoint file is not loaded: [torch.jit.load] is not called. *)
Theorem model_takes_precedence model_type ckpt_file (m : Model R)
    kwargs w :
  model_type ∈ ["md"; "geometry"] →
  ∃ w' self,
    __init__ model_type (Some ckpt_file) (Some m) kwargs w = (w', Ok self) ∧
    model self = m ∧ jit_loaded w' = jit_loaded w.
Proof.
  intros I. unfold __init__. rewrite (valid_model_type _ I).
  unfold bind, ret, iadd_implemented_properties, modify.
  destruct (decide (model_type = "md")); simpl;
    eexists _, _; repeat split.
Qed.

(** C5, as the code has it. Construction requires at least one of a
    model and a checkpoint file: it raises [ValueError] when the variant
    tag is neither [md] nor [geometry], and, the tag being valid, when
    neither is given; given a model it succeeds with that model, whether
    or not a checkpoint file is given too; given a checkpoint file only,
    it succeeds with the model loaded from it, or fails as the loading
    does. *)
Theorem construction_requirements model_type ckpt_file
    (model : option (Model R)) kwargs w :
  let out := __init__ model_type ckpt_file model kwargs w in
  (model_type ∉ ["md"; "geometry"] →
   out = (w, Raise (ValueError "model_type must be either 'md' or 'geometry'"))) ∧
  (model_type ∈ ["md"; "geometry"] →
   match model, ckpt_file with
   | Some m, _ => ∃ self, out.2 = Ok self ∧ get_model self = m
   | None, Some f =>
       match jit_load f with
       | Ok m => ∃ self, out.2 = Ok self ∧ get_model self = m
       | Raise e => out.2 = Raise e
       end
   | None, None =>
       out.2 = Raise (ValueError "Either ckpt_file or model must be provided")
   end).
Proof.
  intros out. subst out. split.
  - intros I. unfold __init__. by rewrite bool_decide_eq_true_2.
  - intros I. unfold __init__. rewrite (valid_model_type _ I).
    unfold bind, ret, raise, iadd_implemented_properties, modify,
      torch_jit_load.
    destruct model as [m |]; [| destruct ckpt_file as [f |]].
    + destruct (decide (model_type = "md")); simpl; eexists; by split.
    + destruct (decide (model_type = "md")); simpl;
        destruct (jit_load f); simpl; try reflexivity; eexists; by split.
    + destruct (decide (model_type = "md")); reflexivity.
Qed.
End InitClaims.

Section InitWitnesses.
Import Rational.
#[local] Existing Instance Q_Float.
#[local] Existing Instance Q_Torch.

(** Construction with a model yields the calculator used in the examples
    on [calculate]. *)
Example init_yields_calculator model_type m :
  model_type ∈ ["md"; "geometry"] →
  (__init__ model_type None (Some m) no_kwargs initial_world).2
  = Ok (calculator_of model_type m).
Proof.
  intros I. apply elem_of_cons in I as [-> | I]; [reflexivity |].
  apply list_elem_of_singleton in I as ->. reflexivity.
Qed.

(** An [md] calculator is constructed in a fresh process, then a
    [geometry] one: the latter reports [stress]. *)
Lemma implemented_properties_is_shared_witness :
  let m := constant_model geometry_output in
  let geo :=
    {| arg_model_type := "geometry"; arg_ckpt_file := None;
       arg_model := Some m; arg_kwargs := no_kwargs |} in
  let w2 :=
    construct_all [geo] (__init__ "md" None (Some m) no_kwargs initial_world).1 in
  "stress" ∈ md_properties ∧
  "stress" ∈ get_implemented_properties w2 (calculator_of "geometry" m) ∧
  implemented_properties w2
  = ["energy"; "energies"; "stress"; "stresses"; "forces"; "gradient"].
Proof.
  intros m geo w2.
  assert (I : "stress" ∈ md_properties) by (right; left).
  split; [exact I |]. split; [| reflexivity].
  destruct (implemented_properties_is_shared None (Some m) no_kwargs
              initial_world [geo]) as (Hall & _ & _).
  exact (Hall (calculator_of "geometry" m) "stress" I).
Defined.

Lemma model_takes_precedence_witness :
  "geometry" ∈ ["md"; "geometry"] ∧
  ∃ w' self,
    __init__ "geometry" (Some "model.jit")
      (Some (constant_model geometry_output)) no_kwargs initial_world
    = (w', Ok self) ∧
    model self = constant_model geometry_output ∧ jit_loaded w' = [].
Proof.
  assert (I : "geometry" ∈ ["md"; "geometry"]) by (right; left).
  split; [exact I |].
  exact (model_takes_precedence "geometry" "model.jit"
           (constant_model geometry_output) no_kwargs initial_world I).
Defined.

(** C5, as the specification has it, fails: construction does not
    require exactly one source of the model. Given both a model and a
    checkpoint file it succeeds. *)
Lemma both_sources_accepted :
  is_Ok (__init__ "md" (Some "model.jit")
           (Some (constant_model geometry_output)) no_kwargs
           initial_world).2.
Proof. exact I. Qed.

Lemma construction_requirements_witness :
  (__init__ "nve" None (Some (constant_model geometry_output)) no_kwargs
     initial_world).2
  = Raise (ValueError "model_type must be either 'md' or 'geometry'") ∧
  (__init__ "md" None None no_kwargs initial_world).2
  = Raise (ValueError "Either ckpt_file or model must be provided") ∧
  is_Ok (__init__ "md" (Some "model.jit") None no_kwargs initial_world).2.
Proof.
  assert (Imd : "md" ∈ ["md"; "geometry"]) by left.
  assert (Inve : "nve" ∉ ["md"; "geometry"]).
  { intros I. apply elem_of_cons in I as [I | I]; [discriminate |].
    apply list_elem_of_singleton in I. discriminate. }
  split; [| split].
  - destruct (construction_requirements "nve" None
                (Some (constant_model geometry_output)) no_kwargs
                initial_world) as [Hbad _].
    by rewrite (Hbad Inve).
  - destruct (construction_requirements "md" None None no_kwargs
                initial_world) as [_ Hgood].
    exact (Hgood Imd).
  - destruct (construction_requirements "md" (Some "model.jit") None
                no_kwargs initial_world) as [_ Hgood].
    destruct (Hgood Imd) as (self & E & _). by rewrite E.
Defined.
End InitWitnesses.

(** ** Further properties of [calculate] *)

Section CalculateFurther.
Context {R : Type} `{Float R} `{ASE R} `{Utils R}.

(** The stored atoms are the atoms of a call that names none. *)
Lemma with_atoms_stored (self : XeqCalculator R) a :
  self_atoms self = Some a → with_atoms (Some a) self = self.
Proof. destruct self. simpl. intros ->. reflexivity. Qed.

(** A call is the call without atoms on the calculator that has stored
    them. *)
Lemma calculate_after_storing w w' atoms properties properties'
    system_changes system_changes' (self : XeqCalculator R) :
  calculate w atoms properties system_changes self
  = calculate w' None properties' system_changes' (with_atoms atoms self).
Proof. rewrite !calculate_unfold. reflexivity. Qed.

(** What is written depends on the calculator through its variant only. *)
Lemma write_results_variant (x y : XeqCalculator R) a res s :
  model_type x = model_type y →
  write_results x a res s = write_results y a res s.
Proof. unfold write_results. intros ->. reflexivity. Qed.

(** The bundle depends on the calculator through its variant and its
    parameters only. *)
Lemma model_inputs_of_congr (x y : XeqCalculator R) a s s' :
  model_type x = model_type y → parameters x = parameters y →
  (model_inputs_of x a s).2 = (model_inputs_of y a s').2.
Proof.
  unfold model_inputs_of, coord_of, bind, ret, raise, lift.
  intros -> ->. repeat case_decide; simpl; try reflexivity.
  all: destruct (radius_graph_pbc _ _ _ _ _); reflexivity.
Qed.

Ltac crunch_results :=
  unfold write_results, bind, getitem, lift, set_result, modify, ret, raise;
  repeat case_decide; simpl;
  repeat match goal with
    | |- context [?m !! ?k] =>
        lazymatch m with
        | insert _ _ _ => fail
        | results _ => fail
        | _ => destruct (m !! k) eqn:?; simpl
        end
    | |- context [item ?t] => destruct (item t) eqn:?; simpl
    | |- context [full_3x3_to_voigt_6_stress ?t] =>
        destruct (full_3x3_to_voigt_6_stress t) eqn:?; simpl
    | |- context [decide ?P] => destruct (decide P); simpl
    end.

(** Writing the results changes the results only. *)
Lemma write_results_fields (x : XeqCalculator R) a res s :
  let s' := (write_results x a res s).1 in
  model_type s' = model_type s ∧ device s' = device s ∧
  model s' = model s ∧ parameters s' = parameters s ∧
  self_atoms s' = self_atoms s.
Proof. crunch_results; repeat split. Qed.

(** Writing the same results again changes nothing. *)
Lemma write_results_idempotent (x : XeqCalculator R) a res s :
  write_results x a res (write_results x a res s).1
  = write_results x a res s.
Proof.
  crunch_results; try reflexivity.
  all: f_equal; destruct s; simpl; f_equal.
  all: apply map_eq; intros k; rewrite !lookup_insert;
    repeat case_decide; congruence.
Qed.

(** Writing the results removes no entry, and touches no key but the five
    of the energy, the forces, the energies, the stress and the
    stresses. *)
Lemma write_results_keys (x : XeqCalculator R) a res s key :
  (is_Some (results s !! key) →
   is_Some (results (write_results x a res s).1 !! key)) ∧
  (key ∉ ["energy"; "forces"; "energies"; "stress"; "stresses"] →
   results (write_results x a res s).1 !! key = results s !! key).
Proof.
  split.
  - intros [v Hv]. crunch_results; rewrite ?lookup_insert;
      repeat case_decide; eauto.
  - intros Hk.
    assert (K1 : key ≠ "energy") by (intros ->; apply Hk; set_solver).
    assert (K2 : key ≠ "forces") by (intros ->; apply Hk; set_solver).
    assert (K3 : key ≠ "energies") by (intros ->; apply Hk; set_solver).
    assert (K4 : key ≠ "stress") by (intros ->; apply Hk; set_solver).
    assert (K5 : key ≠ "stresses") by (intros ->; apply Hk; set_solver).
    crunch_results; by simplify_map_eq.
Qed.

(** The calculator after a call, whatever its outcome, is the calculator
    that stored the atoms, but for its results. *)
Lemma calculate_fields w (self : XeqCalculator R) atoms properties
    system_changes :
  let s' := (calculate w atoms properties system_changes self).1 in
  model_type s' = model_type self ∧ device s' = device self ∧
  model s' = model self ∧ parameters s' = parameters self ∧
  self_atoms s' = self_atoms (with_atoms atoms self).
Proof.
  rewrite calculate_unfold. simpl.
  assert (F : model_type (with_atoms atoms self) = model_type self ∧
              device (with_atoms atoms self) = device self ∧
              model (with_atoms atoms self) = model self ∧
              parameters (with_atoms atoms self) = parameters self)
    by (destruct atoms; repeat split).
  destruct F as (F1 & F2 & F3 & F4).
  destruct (self_atoms (with_atoms atoms self)) as [a |] eqn:Ha;
    [| simpl; by rewrite Ha].
  assert (Hst := model_inputs_of_state (with_atoms atoms self) a
                   (with_atoms atoms self)).
  destruct (model_inputs_of _ a _) as [s2 [model_inputs | e]];
    simpl in Hst; subst s2; [| simpl; by rewrite Ha].
  destruct (model _ model_inputs) as [res | e]; [| simpl; by rewrite Ha].
  destruct (write_results_fields (with_atoms atoms self) a res
              (with_atoms atoms self)) as (W1 & W2 & W3 & W4 & W5).
  rewrite W1, W2, W3, W4, W5, Ha. done.
Qed.

(** X1. A call changes nothing of the calculator but its stored atoms and
    its results: the variant, the device, the model and the parameters
    are as before, and the atoms are those given, or those kept when none
    are given. *)
Theorem calculate_preserves_configuration w (self : XeqCalculator R) atoms
    properties system_changes :
  let s' := (calculate w atoms properties system_changes self).1 in
  model_type s' = model_type self ∧ device s' = device self ∧
  get_model s' = get_model self ∧ parameters s' = parameters self ∧
  self_atoms s' = match atoms with
                  | Some a => Some a
                  | None => self_atoms self
                  end.
Proof.
  intros s'. subst s'.
  destruct (calculate_fields w self atoms properties system_changes)
    as (F1 & F2 & F3 & F4 & F5).
  rewrite F5. unfold get_model. destruct atoms; done.
Qed.

(** A call without atoms, made again, changes nothing. *)
Lemma calculate_stored_again w w' (s : XeqCalculator R) properties
    properties' system_changes system_changes' :
  calculate w' None properties' system_changes'
    (calculate w None properties system_changes s).1
  = calculate w None properties system_changes s.
Proof.
  rewrite (calculate_unfold w None properties system_changes s). simpl.
  destruct (self_atoms s) as [a |] eqn:Ha.
  2: { simpl. rewrite calculate_unfold. simpl. by rewrite Ha. }
  assert (Hst := model_inputs_of_state s a s).
  destruct (model_inputs_of s a s) as [s2 [model_inputs | e]] eqn:Hin;
    simpl in Hst; subst s2.
  2: { simpl. rewrite calculate_unfold. simpl. by rewrite Ha, Hin. }
  destruct (model s model_inputs) as [res | e] eqn:Hm.
  2: { simpl. rewrite calculate_unfold. simpl. by rewrite Ha, Hin, Hm. }
  set (s' := (write_results s a res s).1) in *.
  destruct (write_results_fields s a res s) as (W1 & _ & W3 & W4 & W5).
  fold s' in W1, W3, W4, W5.
  rewrite calculate_unfold. simpl. rewrite W5, Ha.
  assert (Hin' : model_inputs_of s' a s' = (s', Ok model_inputs)).
  { apply injective_projections.
    - apply model_inputs_of_state.
    - rewrite (model_inputs_of_congr s' s a s' s) by done.
      by rewrite Hin. }
  rewrite Hin', W3, Hm.
  rewrite (write_results_variant s' s) by done.
  apply write_results_idempotent.
Qed.

(** X2. A second call with the same atoms leaves the calculator and the
    outcome of the first: the results are overwritten by themselves,
    whether the first call returned or raised part of the way. *)
Theorem calculate_idempotent w w' (self : XeqCalculator R) atoms
    properties properties' system_changes system_changes' :
  calculate w' atoms properties' system_changes'
    (calculate w atoms properties system_changes self).1
  = calculate w atoms properties system_changes self.
Proof.
  destruct (calculate_fields w self atoms properties system_changes)
    as (_ & _ & _ & _ & F5).
  assert (Hs : with_atoms atoms
                 (calculate w atoms properties system_changes self).1
               = (calculate w atoms properties system_changes self).1).
  { destruct atoms as [a |]; [| reflexivity].
    apply with_atoms_stored. by rewrite F5. }
  rewrite (calculate_after_storing w' w atoms properties' properties
             system_changes' system_changes), Hs.
  rewrite (calculate_after_storing w w atoms properties properties
             system_changes system_changes).
  apply calculate_stored_again.
Qed.

(** X3. A call without atoms evaluates the atoms that the calculator has
    stored: after a call that was given atoms, whatever its outcome, a
    call without atoms leaves the same calculator and the same outcome;
    and on a calculator that stores atoms, naming them again or not makes
    no difference. *)
Theorem calculate_reuses_stored_atoms w w' (self : XeqCalculator R) a
    properties properties' system_changes system_changes' :
  calculate w' None properties' system_changes'
    (calculate w (Some a) properties system_changes self).1
  = calculate w (Some a) properties system_changes self ∧
  (self_atoms self = Some a →
   calculate w None properties system_changes self
   = calculate w (Some a) properties system_changes self).
Proof.
  assert (Hstored : ∀ s : XeqCalculator R, self_atoms s = Some a →
            calculate w' None properties' system_changes' s
            = calculate w (Some a) properties system_changes s).
  { intros s Hs.
    rewrite (calculate_after_storing w w' (Some a) properties properties'
               system_changes system_changes').
    by rewrite with_atoms_stored. }
  split.
  - rewrite (calculate_after_storing w w (Some a) properties properties
               system_changes system_changes).
    apply calculate_stored_again.
  - intros Hs.
    rewrite (calculate_after_storing w w' None properties properties'
               system_changes system_changes').
    simpl. by apply Hstored.
Qed.

(** X4. A call removes no entry of the results and writes under no key but
    [energy], [forces], [energies], [stress] and [stresses]: every other
    entry, [gradient] among them, is after the call what it was before,
    whether the call returns or raises. *)
Theorem calculate_writes_five_keys w (self : XeqCalculator R) atoms
    properties system_changes key :
  let s' := (calculate w atoms properties system_changes self).1 in
  (is_Some (results self !! key) → is_Some (results s' !! key)) ∧
  (key ∉ ["energy"; "forces"; "energies"; "stress"; "stresses"] →
   results s' !! key = results self !! key).
Proof.
  intros s'. subst s'. rewrite calculate_unfold. simpl.
  rewrite <- (with_atoms_results atoms self).
  generalize (with_atoms atoms self). intros s.
  destruct (self_atoms s) as [a |]; [| done].
  assert (Hst := model_inputs_of_state s a s).
  destruct (model_inputs_of s a s) as [s2 [model_inputs | e]];
    simpl in Hst; subst s2; [| done].
  destruct (model s model_inputs) as [res | e]; [| done].
  apply write_results_keys.
Qed.

(** X5. An exception of the model passes through the call unchanged: the
    calculator has stored the atoms and its results are untouched. *)
Theorem model_exception_propagates w (self : XeqCalculator R) atoms
    properties system_changes a model_inputs e :
  self_atoms (with_atoms atoms self) = Some a →
  (model_inputs_of (with_atoms atoms self) a (with_atoms atoms self)).2
  = Ok model_inputs →
  model self model_inputs = Raise e →
  calculate w atoms properties system_changes self
  = (with_atoms atoms self, Raise e).
Proof.
  intros Ha Hin Hm. rewrite calculate_unfold. simpl. rewrite Ha.
  assert (Hst := model_inputs_of_state (with_atoms atoms self) a
                   (with_atoms atoms self)).
  destruct (model_inputs_of _ a _) as [s2 r]; simpl in *; subst s2 r.
  by rewrite with_atoms_model, Hm.
Qed.

(** X6. Under the [md] variant an exception of the neighbour builder
    passes through the call unchanged, whatever the model is: the model
    is not run and no result is written. *)
Theorem builder_exception_propagates w (self : XeqCalculator R) atoms
    properties system_changes a e :
  model_type self = "md" →
  self_atoms (with_atoms atoms self) = Some a →
  radius_graph_pbc (positions a) (pbc a) (cell a)
    (cutoff (parameters self)) (max_edges (parameters self)) = Raise e →
  calculate w atoms properties system_changes self
  = (with_atoms atoms self, Raise e).
Proof.
  intros G Ha Hg. rewrite calculate_unfold. simpl. rewrite Ha.
  rewrite model_inputs_of_md by (by rewrite with_atoms_model_type).
  by rewrite with_atoms_parameters, Hg.
Qed.

(** X7. When the model's output has no [energy], the call raises
    [KeyError] on that key, and when its energy is a tensor of several
    elements the call raises what [item] raises; in both cases, under
    either variant, no result is written. *)
Theorem energy_is_read_first w (self : XeqCalculator R) atoms properties
    system_changes a model_inputs res :
  model_type self ∈ ["md"; "geometry"] →
  self_atoms (with_atoms atoms self) = Some a →
  (model_inputs_of (with_atoms atoms self) a (with_atoms atoms self)).2
  = Ok model_inputs →
  model self model_inputs = Ok res →
  (res !! "energy" = None →
   calculate w atoms properties system_changes self
   = (with_atoms atoms self, Raise (KeyError "energy"))) ∧
  (∀ energy e, res !! "energy" = Some energy → item energy = Raise e →
   calculate w atoms properties system_changes self
   = (with_atoms atoms self, Raise e)).
Proof.
  intros G Ha Hin Hm. rewrite calculate_unfold. simpl. rewrite Ha.
  assert (Hst := model_inputs_of_state (with_atoms atoms self) a
                   (with_atoms atoms self)).
  destruct (model_inputs_of _ a _) as [s2 r]; simpl in *; subst s2 r.
  rewrite with_atoms_model, Hm.
  unfold write_results, bind, getitem, lift, raise.
  rewrite with_atoms_model_type.
  apply elem_of_cons in G as [G | G];
    [| apply list_elem_of_singleton in G]; rewrite G; simpl.
  all: split; [intros -> | intros energy e -> Hi; simpl; rewrite Hi];
    reflexivity.
Qed.

(** X8. Under the [geometry] variant, when the model's output has an
    energy but no [gradient], the call raises [KeyError] on that key
    after the energy has been written: the results are those from before
    with the new energy. *)
Theorem geometry_missing_gradient w (self : XeqCalculator R) atoms
    properties system_changes a model_inputs res energy e :
  model_type self = "geometry" →
  self_atoms (with_atoms atoms self) = Some a →
  (model_inputs_of (with_atoms atoms self) a (with_atoms atoms self)).2
  = Ok model_inputs →
  model self model_inputs = Ok res →
  res !! "energy" = Some energy → item energy = Ok e →
  res !! "gradient" = None →
  ∃ s',
    calculate w atoms properties system_changes self
    = (s', Raise (KeyError "gradient")) ∧
    results s' = <["energy" := Scalar (fmul e Hartree)]> (results self).
Proof.
  intros G Ha Hin Hm He Hi Hg. rewrite calculate_unfold. simpl. rewrite Ha.
  assert (Hst := model_inputs_of_state (with_atoms atoms self) a
                   (with_atoms atoms self)).
  destruct (model_inputs_of _ a _) as [s2 r]; simpl in *; subst s2 r.
  rewrite with_atoms_model, Hm.
  unfold write_results, bind, getitem, lift, raise, set_result, modify, ret.
  rewrite with_atoms_model_type, G. simpl.
  rewrite He. simpl. rewrite Hi. simpl. rewrite Hg. simpl.
  eexists. split; [reflexivity |]. simpl. by rewrite with_atoms_results.
Qed.

(** X9. Under the [md] variant on a cell of rank 3, when the model's
    output has the energy, the forces and the energies but no [virials],
    the call raises [KeyError] on that key, whether or not there is a
    [virial]: the energy, the forces and the energies have been written,
    the stress and the stresses have not. *)
Theorem md_missing_virials w (self : XeqCalculator R) atoms properties
    system_changes a model_inputs res energy e forces energies :
  model_type self = "md" →
  self_atoms (with_atoms atoms self) = Some a →
  cell_rank (cell a) = 3%nat →
  (model_inputs_of (with_atoms atoms self) a (with_atoms atoms self)).2
  = Ok model_inputs →
  model self model_inputs = Ok res →
  res !! "energy" = Some energy → item energy = Ok e →
  res !! "forces" = Some forces → res !! "energies" = Some energies →
  res !! "virials" = None →
  ∃ s',
    calculate w atoms properties system_changes self
    = (s', Raise (KeyError "virials")) ∧
    results s'
    = <["energies" := energies]>
      (<["forces" := forces]>
      (<["energy" := Scalar e]> (results self))).
Proof.
  intros G Ha Hr Hin Hm He Hi Hf Hn Hv. rewrite calculate_unfold. simpl.
  rewrite Ha.
  assert (Hst := model_inputs_of_state (with_atoms atoms self) a
                   (with_atoms atoms self)).
  destruct (model_inputs_of _ a _) as [s2 r]; simpl in *; subst s2 r.
  rewrite with_atoms_model, Hm.
  unfold write_results, bind, getitem, lift, raise, set_result, modify, ret.
  rewrite with_atoms_model_type, G. simpl.
  rewrite He. simpl. rewrite Hi. simpl. rewrite Hf. simpl. rewrite Hn.
  simpl. rewrite decide_True by exact Hr. rewrite Hv. simpl.
  eexists. split; [reflexivity |]. simpl. by rewrite with_atoms_results.
Qed.

(** X10. Unless the variant is [md] and the cell is of rank 3, a call
    leaves every entry of the results other than the energy, the forces
    and the energies as it finds it: a stress written by an earlier call
    is still there after the call, and it is the old one. *)
Theorem earlier_stress_survives w (self : XeqCalculator R) atoms
    properties system_changes a stress :
  self_atoms (with_atoms atoms self) = Some a →
  model_type self = "geometry" ∨ cell_rank (cell a) ≠ 3%nat →
  results self !! "stress" = Some stress →
  results (calculate w atoms properties system_changes self).1 !! "stress"
  = Some stress.
Proof.
  intros Ha G Hs. rewrite <- Hs.
  by apply calculate_frame with (a := a).
Qed.
End CalculateFurther.

Section GeometryIgnoresPeriodicity.
Context {R : Type} `{Float R} `{ASE R}.

(** X11. Under the [geometry] variant the neighbour builder is not called
    and neither the cell nor the periodicity flags are read: two calls
    that differ in the builder, and in atoms that have the same positions
    and numbers, have the same outcome and leave the same results. *)
Theorem geometry_ignores_periodicity (U1 U2 : Utils R) w
    (self : XeqCalculator R) a b properties system_changes :
  model_type self = "geometry" →
  positions a = positions b → numbers a = numbers b →
  let out1 :=
    calculate (H2 := U1) w (Some a) properties system_changes self in
  let out2 :=
    calculate (H2 := U2) w (Some b) properties system_changes self in
  out1.2 = out2.2 ∧ results out1.1 = results out2.1.
Proof.
  intros G Hp Hn out1 out2. subst out1 out2.
  rewrite !calculate_unfold. simpl.
  rewrite !model_inputs_of_geometry by exact G. simpl. rewrite Hp, Hn.
  destruct (model self _) as [res | e]; [| done].
  unfold write_results, bind, getitem, lift, raise, set_result, modify, ret.
  simpl. rewrite G. simpl.
  destruct (res !! "energy") as [energy |]; [| done]. simpl.
  destruct (item energy); [| done]. simpl.
  destruct (res !! "gradient"); done.
Qed.
End GeometryIgnoresPeriodicity.

(** ** Further properties of construction *)

Section InitFurther.
Context {R : Type} `{Float R} `{ASE R} `{Torch R} `{Utils R}.

(** What a construction that succeeds returns. *)
Lemma init_success tag ckpt_file (given : option (Model R)) kwargs w w' self :
  __init__ tag ckpt_file given kwargs w = (w', Ok self) →
  tag ∈ ["md"; "geometry"] ∧ model_type self = tag ∧
  parameters self = Calculator_init kwargs ∧
  self_atoms self = None ∧ results self = ∅.
Proof.
  unfold __init__. case_bool_decide as Htag; [intros [=] |].
  assert (Hin : tag ∈ ["md"; "geometry"]).
  { destruct (decide (tag ∈ ["md"; "geometry"])); tauto. }
  unfold bind, ret, raise, iadd_implemented_properties, modify,
    torch_jit_load.
  destruct (decide (tag = "md")); simpl;
    (destruct given as [m |]; [| destruct ckpt_file as [f |]]); simpl;
    try (destruct (jit_load f)); simpl; intros [= <- <-] || intros [=];
    done.
Qed.

(** X12. A calculator as construction leaves it has no atoms and no
    results, and its variant is one of the two; a call that names no
    atoms raises [AttributeError] on it and leaves it as it is. *)
Theorem fresh_calculator_needs_atoms tag ckpt_file (given : option (Model R))
    kwargs w w' self w'' properties system_changes :
  __init__ tag ckpt_file given kwargs w = (w', Ok self) →
  model_type self ∈ ["md"; "geometry"] ∧
  self_atoms self = None ∧ results self = ∅ ∧
  calculate w'' None properties system_changes self
  = (self,
     Raise (AttributeError "'NoneType' object has no attribute 'positions'")).
Proof.
  intros Hinit.
  destruct (init_success _ _ _ _ _ _ _ Hinit) as (Htag & Hmt & _ & Ha & Hr).
  rewrite Hmt. repeat split; try done.
  rewrite calculate_unfold. simpl. by rewrite Ha.
Qed.

(** X13. A construction with a valid variant tag that fails, for want of
    a model and a checkpoint file or because the checkpoint file cannot
    be loaded, has extended the list of the class all the same. *)
Theorem failed_construction_extends_class_list tag ckpt_file kwargs w e :
  tag ∈ ["md"; "geometry"] →
  (__init__ tag ckpt_file (None : option (Model R)) kwargs w).2 = Raise e →
  implemented_properties
    (__init__ tag ckpt_file (None : option (Model R)) kwargs w).1
  = implemented_properties w ++
    (if decide (tag = "md") then md_properties else ["gradient"]) ∧
  match ckpt_file with
  | None => e = ValueError "Either ckpt_file or model must be provided"
  | Some f => jit_load (R := R) f = Raise e
  end.
Proof.
  intros Htag Hfail. split.
  - rewrite init_implemented_properties.
    destruct (decide (tag = "md")) as [| Hmd]; [done |].
    rewrite decide_True; [done |].
    apply elem_of_cons in Htag as [? | Htag]; [done |].
    by apply list_elem_of_singleton in Htag.
  - revert Hfail. unfold __init__. rewrite (valid_model_type _ Htag).
    unfold bind, ret, raise, iadd_implemented_properties, modify,
      torch_jit_load.
    destruct (decide (tag = "md")); simpl;
      (destruct ckpt_file as [f |]; simpl;
       [destruct (jit_load f); simpl; [intros [=] | by intros [= ->]]
       | by intros [= <-]]).
Qed.

(** X14. [torch.jit.load] is called exactly when the variant tag is
    valid, no model is given and a checkpoint file is; it is then called
    once, on that file, whether the loading succeeds or not. *)
Theorem checkpoint_loaded_exactly_when tag ckpt_file
    (given : option (Model R)) kwargs w :
  jit_loaded (__init__ tag ckpt_file given kwargs w).1
  = match given, ckpt_file with
    | None, Some f =>
        if bool_decide (tag ∈ ["md"; "geometry"]) then jit_loaded w ++ [f]
        else jit_loaded w
    | _, _ => jit_loaded w
    end.
Proof.
  unfold __init__. case_bool_decide as Htag.
  - rewrite bool_decide_eq_false_2 by done.
    by destruct given, ckpt_file.
  - assert (Hin : tag ∈ ["md"; "geometry"]).
    { destruct (decide (tag ∈ ["md"; "geometry"])); tauto. }
    rewrite bool_decide_eq_true_2 by done.
    unfold bind, ret, raise, iadd_implemented_properties, modify,
      torch_jit_load.
    destruct (decide (tag = "md")); simpl;
      (destruct given as [m |]; [| destruct ckpt_file as [f |]]); simpl;
      try (destruct (jit_load f)); done.
Qed.

(** X15. A [geometry] calculator constructed in a fresh process advertises
    [energy] and [gradient], not [forces]; yet no call ever writes a
    [gradient] entry: its results never hold one. *)
Theorem geometry_advertises_gradient (m : Model R) ckpt_file kwargs :
  ∃ w' self,
    __init__ "geometry" ckpt_file (Some m) kwargs initial_world
    = (w', Ok self) ∧
    get_implemented_properties w' self = ["energy"; "gradient"] ∧
    ∀ w'' atoms properties system_changes,
      results (calculate w'' atoms properties system_changes self).1
        !! "gradient" = None.
Proof.
  unfold __init__, bind, ret, iadd_implemented_properties, modify. simpl.
  eexists _, _. split; [reflexivity |]. split; [reflexivity |].
  intros w'' atoms properties system_changes.
  rewrite calculate_unfold. simpl.
  set (s := with_atoms atoms _).
  assert (Hr : results s !! "gradient" = None) by (by destruct atoms).
  clearbody s.
  destruct (self_atoms s) as [a |]; [| done].
  assert (Hst := model_inputs_of_state s a s).
  destruct (model_inputs_of s a s) as [s2 [model_inputs | e]];
    simpl in Hst; subst s2; [| done].
  destruct (model s model_inputs) as [res | e]; [| done].
  destruct (write_results_keys s a res s "gradient") as [_ Hframe].
  rewrite Hframe; [done |].
  intros Hk. repeat (apply elem_of_cons in Hk as [Hk | Hk]; [done |]).
  by apply not_elem_of_nil in Hk.
Qed.

(** X16. The parameters of a constructed calculator are the keyword
    arguments of its construction, and the defaults of the class where
    none is given: the charge and the spin of every input bundle are
    those (0 by default), and under the [md] variant the edge index and
    the shifts of the bundle are what the neighbour builder returns for
    that cutoff (5.0 by default) and that budget (100 by default). *)
Theorem construction_parameters_reach_model tag ckpt_file
    (given : option (Model R)) kwargs w w' self a s model_inputs :
  __init__ tag ckpt_file given kwargs w = (w', Ok self) →
  (model_inputs_of self a s).2 = Ok model_inputs →
  model_inputs !! "charge" = Some (PyInt (default 0 (kw_charge kwargs))) ∧
  model_inputs !! "spin" = Some (PyInt (default 0 (kw_spin kwargs))) ∧
  (tag = "md" →
   ∃ graph,
     radius_graph_pbc (positions a) (pbc a) (cell a)
       (default (float_of_Z 5) (kw_cutoff kwargs))
       (default 100 (kw_max_edges kwargs)) = Ok graph ∧
     model_inputs !! "edge_index" = Some (LongTensor graph.1) ∧
     model_inputs !! "shifts"
     = Some (Tensor (amap to_default_dtype graph.2))).
Proof.
  intros Hinit.
  destruct (init_success _ _ _ _ _ _ _ Hinit) as (Htag & Hmt & Hp & _ & _).
  apply elem_of_cons in Htag as [Htag | Htag];
    [| apply list_elem_of_singleton in Htag]; subst tag.
  - rewrite model_inputs_of_md by exact Hmt. rewrite Hp. simpl.
    destruct (radius_graph_pbc _ _ _ _ _) as [graph |] eqn:Hg;
      [| intros [=]].
    simpl. intros [= <-].
    split; [by simplify_map_eq |]. split; [by simplify_map_eq |].
    intros _. exists graph. split; [reflexivity |]. by simplify_map_eq.
  - rewrite model_inputs_of_geometry by exact Hmt. rewrite Hp. simpl.
    intros [= <-].
    split; [by simplify_map_eq |]. split; [by simplify_map_eq |].
    intros [=].
Qed.
End InitFurther.

(** ** The further properties on concrete calculators *)

Section FurtherWitnesses.
Import Rational.
#[local] Existing Instance Q_Float.
#[local] Existing Instance Q_Torch.
#[local] Existing Instance Q_Utils.

Lemma calculate_reuses_stored_atoms_witness :
  let ase := Q_ASE voigt_symmetrized in
  let self := calculator_of "geometry" (constant_model geometry_output) in
  let first := calculate initial_world (Some hydrogen) None [] self in
  self_atoms first.1 = Some hydrogen ∧
  first.2 = Ok tt ∧
  calculate initial_world None None [] first.1
  = calculate initial_world (Some hydrogen) None [] first.1.
Proof.
  intros ase self first.
  assert (Ha : self_atoms first.1 = Some hydrogen) by reflexivity.
  split; [exact Ha |]. split; [reflexivity |].
  destruct (calculate_reuses_stored_atoms (H0 := ase) initial_world
              initial_world first.1 hydrogen None None [] [])
    as [_ Hsame].
  exact (Hsame Ha).
Defined.

Lemma calculate_writes_five_keys_witness :
  let ase := Q_ASE voigt_symmetrized in
  let self :=
    {| model_type := "md"; device := "cpu";
       model := constant_model (md_output asymmetric_virial);
       parameters := default_parameters; atoms := None;
       results := {["dipole" := vec 1 2 3]} |} in
  let s' := (calculate initial_world (Some crystal) None [] self).1 in
  ("dipole" ∉ ["energy"; "forces"; "energies"; "stress"; "stresses"]) ∧
  results s' !! "dipole" = Some (vec 1 2 3) ∧
  is_Some (results s' !! "stress").
Proof.
  intros ase self s'.
  assert (Hk : "dipole" ∉ ["energy"; "forces"; "energies"; "stress";
                           "stresses"]).
  { intros Hk. repeat (apply elem_of_cons in Hk as [Hk | Hk];
                       [discriminate |]).
    by apply not_elem_of_nil in Hk. }
  split; [exact Hk |].
  destruct (calculate_writes_five_keys (H0 := ase) initial_world self
              (Some crystal) None [] "dipole") as [_ Hframe].
  split; [unfold s'; rewrite (Hframe Hk); reflexivity |].
  vm_compute. eexists. reflexivity.
Defined.

Lemma model_exception_propagates_witness :
  let ase := Q_ASE voigt_symmetrized in
  let failing : Model Q := λ _, Raise (RuntimeError "out of memory") in
  let self := calculator_of "geometry" failing in
  calculate initial_world (Some hydrogen) None [] self
  = (with_atoms (Some hydrogen) self, Raise (RuntimeError "out of memory")).
Proof.
  intros ase failing self.
  destruct (model_inputs_of (with_atoms (Some hydrogen) self) hydrogen
              (with_atoms (Some hydrogen) self)) as [s2 [model_inputs |]]
    eqn:Hin; [| discriminate].
  apply (model_exception_propagates (H0 := ase) initial_world self
           (Some hydrogen) None [] hydrogen model_inputs);
    [reflexivity | by rewrite Hin | reflexivity].
Defined.

Lemma builder_exception_propagates_witness :
  let ase := Q_ASE voigt_symmetrized in
  let flat : Atoms Q :=
    {| positions := Array [vec 0 0 0; vec 1 0 0];
       numbers := Array [Scalar 1%Z; Scalar 1%Z];
       pbc := (true, true, true);
       cell := Array [vec 4 0 0; vec 0 4 0; vec 0 0 0] |} in
  let self := calculator_of "md" (constant_model (md_output asymmetric_virial)) in
  calculate initial_world (Some flat) None [] self
  = (with_atoms (Some flat) self,
     Raise (ConfigurationError "degenerate lattice on a periodic axis")).
Proof.
  intros ase flat self.
  apply (builder_exception_propagates (H0 := ase) initial_world self
           (Some flat) None [] flat); [reflexivity | reflexivity |].
  vm_compute. reflexivity.
Defined.

Lemma energy_is_read_first_witness :
  let ase := Q_ASE voigt_symmetrized in
  let self := calculator_of "md" (constant_model ∅) in
  "md" ∈ ["md"; "geometry"] ∧
  calculate initial_world (Some chain) None [] self
  = (with_atoms (Some chain) self, Raise (KeyError "energy")).
Proof.
  intros ase self.
  assert (I : "md" ∈ ["md"; "geometry"]) by left.
  split; [exact I |].
  destruct (model_inputs_of (with_atoms (Some chain) self) chain
              (with_atoms (Some chain) self)) as [s2 [model_inputs |]]
    eqn:Hin; [| discriminate].
  destruct (energy_is_read_first (H0 := ase) initial_world self
              (Some chain) None [] chain model_inputs ∅ I eq_refl)
    as [Hnone _]; [by rewrite Hin | reflexivity |].
  apply Hnone. reflexivity.
Defined.

Lemma geometry_missing_gradient_witness :
  let ase := Q_ASE voigt_symmetrized in
  let output : gmap string (ndarray Q) := <["energy" := Scalar (-1 # 2)%Q]> ∅ in
  let self := calculator_of "geometry" (constant_model output) in
  ∃ s',
    calculate initial_world (Some hydrogen) None [] self
    = (s', Raise (KeyError "gradient")) ∧
    results s' = <["energy" := Scalar (fmul (-1 # 2)%Q Hartree)]> ∅.
Proof.
  intros ase output self.
  destruct (model_inputs_of (with_atoms (Some hydrogen) self) hydrogen
              (with_atoms (Some hydrogen) self)) as [s2 [model_inputs |]]
    eqn:Hin; [| discriminate].
  apply (geometry_missing_gradient (H0 := ase) initial_world self
           (Some hydrogen) None [] hydrogen model_inputs output
           (Scalar (-1 # 2)%Q) (-1 # 2)%Q);
    try reflexivity.
  by rewrite Hin.
Defined.

Lemma md_missing_virials_witness :
  let ase := Q_ASE voigt_symmetrized in
  let output : gmap string (ndarray Q) :=
    <["energies" := Array [Scalar (-1)%Q; Scalar (-2)%Q]]>
    (<["forces" := Array [vec 1 0 0; vec (-1) 0 0]]>
    (<["energy" := Scalar (-3)%Q]> ∅)) in
  let self := calculator_of "md" (constant_model output) in
  cell_rank (cell crystal) = 3%nat ∧
  ∃ s',
    calculate initial_world (Some crystal) None [] self
    = (s', Raise (KeyError "virials")) ∧
    results s' = output.
Proof.
  intros ase output self. split; [reflexivity |].
  destruct (model_inputs_of (with_atoms (Some crystal) self) crystal
              (with_atoms (Some crystal) self)) as [s2 [model_inputs |]]
    eqn:Hin; [| discriminate].
  destruct (md_missing_virials (H0 := ase) initial_world self
              (Some crystal) None [] crystal model_inputs output
              (Scalar (-3)%Q) (-3)%Q (Array [vec 1 0 0; vec (-1) 0 0])
              (Array [Scalar (-1)%Q; Scalar (-2)%Q]))
    as (s' & Hc & Hr); try reflexivity.
  { by rewrite Hin. }
  exists s'. split; [exact Hc |]. rewrite Hr. reflexivity.
Defined.

(** A calculator evaluated on the crystal and then on the chain still
    holds the stress of the crystal. *)
Lemma earlier_stress_survives_witness :
  let ase := Q_ASE voigt_symmetrized in
  let self := calculator_of "md" (constant_model (md_output asymmetric_virial)) in
  let first := calculate initial_world (Some crystal) None [] self in
  let second := calculate initial_world (Some chain) None [] first.1 in
  first.2 = Ok tt ∧ second.2 = Ok tt ∧
  cell_rank (cell chain) ≠ 3%nat ∧
  is_Some (results first.1 !! "stress") ∧
  results second.1 !! "stress" = results first.1 !! "stress".
Proof.
  intros ase self first second.
  assert (Hr : cell_rank (cell chain) ≠ 3%nat) by (vm_compute; discriminate).
  destruct (results first.1 !! "stress") as [stress |] eqn:Hs;
    [| vm_compute in Hs; discriminate].
  split; [reflexivity |]. split; [vm_compute; reflexivity |].
  split; [exact Hr |]. split; [eexists; reflexivity |].
  exact (earlier_stress_survives (H0 := ase) initial_world first.1
           (Some chain) None [] chain stress eq_refl (or_intror Hr) Hs).
Defined.

Lemma geometry_ignores_periodicity_witness :
  let ase := Q_ASE voigt_symmetrized in
  let no_builder : Utils Q :=
    {| radius_graph_pbc := λ _ _ _ _ _,
         Raise (RuntimeError "the builder was called") |} in
  let boxed : Atoms Q :=
    {| positions := positions hydrogen; numbers := numbers hydrogen;
       pbc := (true, true, true);
       cell := Array [vec 4 0 0; vec 0 4 0; vec 0 0 4] |} in
  let self := calculator_of "geometry" (constant_model geometry_output) in
  let out1 := calculate (H2 := Q_Utils) initial_world (Some hydrogen) None [] self in
  let out2 := calculate (H2 := no_builder) initial_world (Some boxed) None [] self in
  out1.2 = Ok tt ∧ out1.2 = out2.2 ∧ results out1.1 = results out2.1.
Proof.
  intros ase no_builder boxed self out1 out2.
  split; [reflexivity |].
  exact (geometry_ignores_periodicity (H0 := ase) Q_Utils no_builder
           initial_world self hydrogen boxed None [] eq_refl eq_refl
           eq_refl).
Defined.

Lemma fresh_calculator_needs_atoms_witness :
  let ase := Q_ASE voigt_symmetrized in
  ∃ w' self,
    __init__ "md" (Some "model.jit") None no_kwargs initial_world
    = (w', Ok self) ∧
    calculate w' None None [] self
    = (self,
       Raise (AttributeError "'NoneType' object has no attribute 'positions'")).
Proof.
  intros ase.
  destruct (__init__ "md" (Some "model.jit") None no_kwargs initial_world)
    as [w' [self |]] eqn:Hinit; [| discriminate].
  exists w', self. split; [reflexivity |].
  destruct (fresh_calculator_needs_atoms (H0 := ase) "md"
              (Some "model.jit") None no_kwargs initial_world w' self w'
              None [] Hinit) as (_ & _ & _ & Hc).
  exact Hc.
Defined.

Lemma failed_construction_extends_class_list_witness :
  let out := __init__ "md" (Some "missing.jit") None no_kwargs initial_world in
  "md" ∈ ["md"; "geometry"] ∧
  out.2 = Raise (ValueError "The provided filename does not exist") ∧
  implemented_properties out.1
  = ["energy"; "energies"; "stress"; "stresses"; "forces"].
Proof.
  intros out.
  assert (I : "md" ∈ ["md"; "geometry"]) by left.
  assert (Hfail : out.2
            = Raise (ValueError "The provided filename does not exist"))
    by (vm_compute; reflexivity).
  split; [exact I |]. split; [exact Hfail |].
  destruct (failed_construction_extends_class_list "md"
              (Some "missing.jit") no_kwargs initial_world
              (ValueError "The provided filename does not exist") I Hfail)
    as [Hl _].
  exact Hl.
Defined.

Lemma construction_parameters_reach_model_witness :
  let ase := Q_ASE voigt_symmetrized in
  let kwargs : Kwargs Q :=
    {| kw_cutoff := Some (3 # 2)%Q; kw_max_edges := None;
       kw_charge := Some 1; kw_spin := None |} in
  ∃ w' self model_inputs,
    __init__ "md" None (Some (constant_model ∅)) kwargs initial_world
    = (w', Ok self) ∧
    (model_inputs_of self chain self).2 = Ok model_inputs ∧
    model_inputs !! "charge" = Some (PyInt 1) ∧
    model_inputs !! "spin" = Some (PyInt 0).
Proof.
  intros ase kwargs.
  destruct (__init__ "md" None (Some (constant_model ∅)) kwargs initial_world)
    as [w' [self |]] eqn:Hinit; [| discriminate].
  destruct ((model_inputs_of self chain self).2) as [model_inputs |]
    eqn:Hin;
    [| vm_compute in Hinit; injection Hinit as <- <-; vm_compute in Hin;
       discriminate].
  exists w', self, model_inputs. split; [reflexivity |].
  split; [exact Hin |].
  destruct (construction_parameters_reach_model (H0 := ase) "md" None
              (Some (constant_model ∅)) kwargs initial_world w' self chain
              self model_inputs Hinit Hin) as (Hc & Hs & _).
  split; [exact Hc | exact Hs].
Defined.
End FurtherWitnesses.
